(** * astro-htaccess: the directive synthesizer of [src/htaccess.ts]

    A shallow embedding of the integration defined in [src/htaccess.ts]:
    the two lifecycle hooks, the four rule sources that share the
    [error] flag and the [handledErrorCodes] set, the regular-expression
    rewriting of user redirects and the write gate.

    JavaScript strings are modelled by [string] (characters as 8-bit
    [ascii]); JavaScript numbers that occur in the program are natural
    numbers or [NaN]. *)

From Stdlib Require Import String Ascii List Bool Arith NArith Lia.
From Stdlib Require Import Numbers.DecimalString.
Import ListNotations.
Open Scope list_scope.
Open Scope string_scope.

(* ================================================================== *)
(** * JavaScript string primitives used by the source *)
(* ================================================================== *)

Module JsString.

Definition LF : ascii := "010"%char.

(** [s.endsWith(suf)]: some suffix of [s] is [suf]. *)
Fixpoint endsWith (s suf : string) : bool :=
  (s =? suf) ||
  match s with
  | EmptyString => false
  | String _ s' => endsWith s' suf
  end.

(** [s.startsWith(p)]. *)
Definition startsWith (s p : string) : bool := prefix p s.

(** [s.slice(1, -1)]: drop the first and the last character. *)
Fixpoint dropLast (s : string) : string :=
  match s with
  | EmptyString => EmptyString
  | String c EmptyString => EmptyString
  | String c s' => String c (dropLast s')
  end.

Definition slice_1_m1 (s : string) : string :=
  match s with
  | EmptyString => EmptyString
  | String _ s' => dropLast s'
  end.

(** [s.replaceAll(pat, rep)] for a non-empty string pattern: scan from
    the left, replace each occurrence, resume after it.  [skip] counts
    the characters of the current occurrence still to be passed. *)
Fixpoint replaceAll_from (pat rep : string) (skip : nat) (s : string) : string :=
  match s with
  | EmptyString => EmptyString
  | String c s' =>
      match skip with
      | S k => replaceAll_from pat rep k s'
      | O =>
          if prefix pat s
          then rep ++ replaceAll_from pat rep (String.length pat - 1) s'
          else String c (replaceAll_from pat rep 0 s')
      end
  end.

Definition replaceAll (s pat rep : string) : string :=
  replaceAll_from pat rep 0 s.

(** Does the character occur in the string? *)
Fixpoint includes_char (c : ascii) (s : string) : bool :=
  match s with
  | EmptyString => false
  | String d s' => (d =? c)%char || includes_char c s'
  end.

(** [s.includes(sub)]: [sub] is a prefix of some suffix of [s]. *)
Fixpoint includes (s sub : string) : bool :=
  prefix sub s ||
  match s with
  | EmptyString => false
  | String _ s' => includes s' sub
  end.

(** [s.split(sep)] for a one-character separator. *)
Fixpoint split (sep : ascii) (s : string) : list string :=
  match s with
  | EmptyString => [EmptyString]
  | String c s' =>
      if (c =? sep)%char then EmptyString :: split sep s'
      else match split sep s' with
           | h :: t => String c h :: t
           | [] => [String c EmptyString]
           end
  end.

(** [arr.join(sep)] is [String.concat sep arr]. *)
Definition join (sep : string) (l : list string) : string := String.concat sep l.

(** A string is truthy when it is not empty. *)
Definition truthy (s : string) : bool :=
  match s with EmptyString => false | _ => true end.

End JsString.

(* ================================================================== *)
(** * JavaScript numbers, as far as the source uses them *)
(* ================================================================== *)

Module JsNumber.

Inductive number : Type :=
| NaN
| Nat (n : N).

Definition eqb (a b : number) : bool :=
  match a, b with
  | NaN, NaN => true      (* SameValueZero, as used by Set *)
  | Nat x, Nat y => N.eqb x y
  | _, _ => false
  end.

(** [String(n)], the text a template literal inserts for [n]. *)
Definition toString (x : number) : string :=
  match x with
  | NaN => "NaN"
  | Nat n => NilEmpty.string_of_uint (N.to_uint n)
  end.

Definition is_digit (c : ascii) : bool :=
  (48 <=? nat_of_ascii c)%nat && (nat_of_ascii c <=? 57)%nat.

Definition digit_value (c : ascii) : N := N.of_nat (nat_of_ascii c - 48).

(** [parseInt(s)] for a string without leading blanks or sign: the value
    of the longest prefix of decimal digits, [NaN] when it is empty. *)
Fixpoint parse_digits (acc : N) (s : string) : N :=
  match s with
  | String c s' =>
      if is_digit c then parse_digits (10 * acc + digit_value c)%N s' else acc
  | EmptyString => acc
  end.

Definition parseInt (s : string) : number :=
  match s with
  | String c _ => if is_digit c then Nat (parse_digits 0 s) else NaN
  | EmptyString => NaN
  end.

End JsNumber.

(* ================================================================== *)
(** * Node's [path.posix] functions called by the source *)
(* ================================================================== *)

Module JsPath.

(** Library code of Node.js, outside the repository, modelled after its
    documented behaviour: [join] glues its non-empty arguments with [/]
    and normalizes the result; [normalize] resolves [.] and [..]
    segments, replaces runs of separators by one separator and keeps a
    trailing separator. *)

Definition SLASH : ascii := "/"%char.

(** One segment against the segments kept so far (latest first). *)
Definition resolve_step (allowAboveRoot : bool) (stack : list string)
    (seg : string) : list string :=
  if (seg =? EmptyString) || (seg =? ".") then stack
  else if seg =? ".." then
    match stack with
    | top :: below =>
        if top =? ".." then seg :: stack else below
    | [] => if allowAboveRoot then [seg] else []
    end
  else seg :: stack.

Definition resolve (allowAboveRoot : bool) (segs : list string) : list string :=
  rev (fold_left (resolve_step allowAboveRoot) segs []).

Definition lastChar_is (c : ascii) (s : string) : bool :=
  JsString.endsWith s (String c EmptyString).

Definition normalize (p : string) : string :=
  match p with
  | EmptyString => "."
  | String c0 _ =>
      let isAbsolute := (c0 =? SLASH)%char in
      let trailingSeparator := lastChar_is SLASH p in
      let body :=
        JsString.join "/" (resolve (negb isAbsolute) (JsString.split SLASH p)) in
      match body with
      | EmptyString =>
          if isAbsolute then "/" else if trailingSeparator then "./" else "."
      | _ =>
          (if isAbsolute then "/" else EmptyString) ++ body ++
          (if trailingSeparator then "/" else EmptyString)
      end
  end.

Definition join (parts : list string) : string :=
  match filter JsString.truthy parts with
  | [] => "."
  | nonempty => normalize (JsString.join "/" nonempty)
  end.

End JsPath.

(* ================================================================== *)
(** * A backtracking matcher for the regular expressions of the source *)
(* ================================================================== *)

Module JsRegExp.

(** The fragment of the pattern language that the two literals of the
    source use. *)
Inductive regex : Type :=
| Rchar (c : ascii)                       (* a literal character      *)
| Rclass (negated : bool) (cs : list ascii) (* [...] and [^...]       *)
| Rdigit                                  (* \d                       *)
| Rbol                                    (* ^ (no multiline flag)    *)
| Reol                                    (* $ (no multiline flag)    *)
| Rseq (r1 r2 : regex)
| Ralt (r1 r2 : regex)                    (* r1|r2, r1 tried first    *)
| Rstar (r : regex)                       (* greedy r*                *)
| Rgroup (i : nat) (r : regex).           (* capturing group number i *)

(** A position of the matcher: the index in the subject, what is left of
    it, and the groups captured so far (latest first). *)
Record mstate : Type := MState {
  index : nat;
  rest : string;
  captures : list (nat * string)
}.

Definition class_test (negated : bool) (cs : list ascii) (c : ascii) : bool :=
  xorb negated (existsb (Ascii.eqb c) cs).

Definition step_char (p : ascii -> bool) (k : mstate -> option mstate)
    (st : mstate) : option mstate :=
  match rest st with
  | String c s' =>
      if p c then k (MState (S (index st)) s' (captures st)) else None
  | EmptyString => None
  end.

(** Matching in continuation-passing style: [rmatch r k st] tries the
    ways [r] can match at [st] in the priority order of a backtracking
    engine and returns the first one that [k] accepts.  An iteration of
    a star that consumes nothing is rejected, as in ECMAScript, so every
    iteration shortens what is left of the subject: the counter [n] of
    the star starts at that length, stays above it, and reaches zero
    only when nothing is left to consume. *)
Fixpoint rmatch (r : regex) (k : mstate -> option mstate) (st : mstate)
    {struct r} : option mstate :=
  match r with
  | Rchar c => step_char (Ascii.eqb c) k st
  | Rclass negated cs => step_char (class_test negated cs) k st
  | Rdigit => step_char JsNumber.is_digit k st
  | Rbol => if (index st =? 0)%nat then k st else None
  | Reol => match rest st with EmptyString => k st | _ => None end
  | Rseq r1 r2 => rmatch r1 (rmatch r2 k) st
  | Ralt r1 r2 =>
      match rmatch r1 k st with
      | Some res => Some res
      | None => rmatch r2 k st
      end
  | Rstar r1 =>
      (fix iterate (n : nat) (st : mstate) {struct n} : option mstate :=
         match n with
         | O => k st
         | S n' =>
             match rmatch r1
                     (fun st' =>
                        if (String.length (rest st') <? String.length (rest st))%nat
                        then iterate n' st' else None) st with
             | Some res => Some res
             | None => k st
             end
         end) (String.length (rest st)) st
  | Rgroup i r1 =>
      rmatch r1
        (fun st' =>
           k (MState (index st') (rest st')
                ((i, substring 0 (index st' - index st) (rest st))
                   :: captures st')))
        st
  end.

(** One attempt at a fixed start position. *)
Definition match_at (r : regex) (i : nat) (s : string) : option mstate :=
  rmatch r (fun st => Some st) (MState i s []).

(** The text of group [i] (empty when it did not take part). *)
Fixpoint group (i : nat) (caps : list (nat * string)) : string :=
  match caps with
  | [] => EmptyString
  | (j, t) :: caps' => if (i =? j)%nat then t else group i caps'
  end.

(** [regex.exec(s)] without the global flag: the leftmost start position
    that matches. *)
Fixpoint exec_from (r : regex) (i : nat) (s : string) : option mstate :=
  match match_at r i s with
  | Some st => Some st
  | None =>
      match s with
      | String _ s' => exec_from r (S i) s'
      | EmptyString => None
      end
  end.

Definition exec (r : regex) (s : string) : option mstate := exec_from r 0 s.

(** Expansion of a replacement template: [$d] stands for group [d]
    (one digit, [1] to [9]); every other character stands for itself. *)
Fixpoint expand (template : string) (caps : list (nat * string)) : string :=
  match template with
  | EmptyString => EmptyString
  | String c t =>
      match t with
      | String d t' =>
          if (c =? "$")%char && JsNumber.is_digit d && negb (d =? "0")%char
          then group (nat_of_ascii d - 48) caps ++ expand t' caps
          else String c (expand t caps)
      | EmptyString => String c (expand t caps)
      end
  end.

(** [s.replaceAll(regex, template)] with the global flag: the subject is
    walked from the left; at each position not inside the previous
    match the regex is tried; a match is replaced by the expanded
    template and the walk resumes at its end (one character further
    when the match is empty). *)
Fixpoint replace_walk (r : regex) (template : string) (i skip : nat)
    (s : string) : string :=
  match skip with
  | S k =>
      match s with
      | String _ s' => replace_walk r template (S i) k s'
      | EmptyString => EmptyString
      end
  | O =>
      match match_at r i s with
      | Some st =>
          expand template (captures st) ++
          match s with
          | String c s' =>
              if (index st - i =? 0)%nat
              then String c (replace_walk r template (S i) 0 s')
              else replace_walk r template (S i) (index st - i - 1) s'
          | EmptyString => EmptyString
          end
      | None =>
          match s with
          | String c s' => String c (replace_walk r template (S i) 0 s')
          | EmptyString => EmptyString
          end
      end
  end.

Definition replaceAll (s : string) (r : regex) (template : string) : string :=
  replace_walk r template 0 0 s.

(** A regular-expression object: its source text and its flags. *)
Record RegExp : Type := mkRegExp { source : string; flags : string }.

(** [re.toString()]. *)
Definition toString (re : RegExp) : string :=
  "/" ++ source re ++ "/" ++ flags re.

End JsRegExp.

Import JsRegExp.

(** [const errorPageRegex = /^\/([345]\d\d)$/] *)
Definition errorPageRegex : regex :=
  Rseq Rbol
    (Rseq (Rchar "/")
       (Rseq (Rgroup 1 (Rseq (Rclass false ["3"; "4"; "5"]%char)
                          (Rseq Rdigit Rdigit)))
          Reol)).

(** The body of the capturing groups 2 and 3 below: the non-capturing
    alternation "backslash followed by ]", or "any character but a
    space", under a greedy star. *)
Definition bracket_body : regex :=
  Rstar (Ralt (Rseq (Rchar "\") (Rchar "]")) (Rclass true [" "%char])).

(** [const spaceInCharacterMatchingRegex] (line 40), flag [g]: group 1
    is "a character other than backslash, or the start of the subject";
    then a literal [[]; group 2; a space; group 3; a literal []]. *)
Definition spaceInCharacterMatchingRegex : regex :=
  Rseq (Rgroup 1 (Ralt (Rclass true ["\"%char]) Rbol))
    (Rseq (Rchar "[")
       (Rseq (Rgroup 2 bracket_body)
          (Rseq (Rchar " ")
             (Rseq (Rgroup 3 bracket_body)
                (Rchar "]"))))).

(** The rewriting of a regular-expression [match] (lines 157-166). *)
Definition translate_regex (re : RegExp) : string :=
  JsString.replaceAll
    (JsRegExp.replaceAll
       (JsString.replaceAll (JsString.slice_1_m1 (JsRegExp.toString re))
          "\/" "/")
       spaceInCharacterMatchingRegex "$1(?:[$2$3]|%20)")
    " " "%20".

(** A regular-expression literal without flags. *)
Definition lit (src : string) : RegExp := mkRegExp src EmptyString.

(* ================================================================== *)
(** * The data model: [Config] and the generator's routes *)
(* ================================================================== *)

(** [export type RedirectCode] (line 7); the numeric members are named
    after their value. *)
Inductive RedirectCode : Type :=
| permanent | n301 | temp | n302 | seeother | n303 | gone | n410.

(** [export type ErrorCode] (lines 8-30). *)
Inductive ErrorCode : Type :=
| E400 | E401 | E402 | E403 | E404 | E405 | E406 | E410 | E412 | E415 | E418
| E420 | E422 | E426 | E429 | E451 | E500 | E501 | E502 | E503 | E504 | E505.

Definition ErrorCode_number (c : ErrorCode) : N :=
  match c with
  | E400 => 400 | E401 => 401 | E402 => 402 | E403 => 403 | E404 => 404
  | E405 => 405 | E406 => 406 | E410 => 410 | E412 => 412 | E415 => 415
  | E418 => 418 | E420 => 420 | E422 => 422 | E426 => 426 | E429 => 429
  | E451 => 451 | E500 => 500 | E501 => 501 | E502 => 502 | E503 => 503
  | E504 => 504 | E505 => 505
  end%N.

(** What a template literal inserts for a [RedirectCode]: the keyword
    itself, or the decimal text of the number. *)
Definition RedirectCode_text (c : RedirectCode) : string :=
  match c with
  | permanent => "permanent" | n301 => "301"
  | temp => "temp" | n302 => "302"
  | seeother => "seeother" | n303 => "303"
  | gone => "gone" | n410 => "410"
  end.

Record ErrorPage : Type := mkErrorPage {
  code : ErrorCode;
  document : string
}.

(** [match: string | RegExp] *)
Inductive Match : Type :=
| MatchString (s : string)
| MatchRegExp (re : RegExp).

Record Redirect : Type := mkRedirect {
  redirect_code : option RedirectCode;     (* [code?] *)
  redirect_match : Match;                  (* [match] *)
  url : string
}.

(** [generateHtaccessFile]: a boolean, or a function (synchronous or
    asynchronous: the hooks await it either way).  [GenFunction f] answers
    [f n] when it is called after [n] earlier calls. *)
Inductive Generate : Type :=
| GenBoolean (b : bool)
| GenFunction (f : nat -> bool).

(** [export interface Config] (lines 32-37); [None] is [undefined]. *)
Record Config : Type := mkConfig {
  generateHtaccessFile : option Generate;
  errorPages : option (list ErrorPage);
  redirects : option (list Redirect);
  customRules : option (list string)
}.

(** The routes handed to [astro:build:done]. *)
Module RouteType.
Inductive t : Type := page | endpoint | redirect | fallback.
End RouteType.

Inductive RedirectConfig : Type :=
| RedirectString (destination : string)
| RedirectObject (status : N) (destination : string).

Record RouteData : Type := mkRoute {
  type : RouteType.t;
  route : string;
  redirect : option RedirectConfig
}.

(* ================================================================== *)
(** * The effects of a run *)
(* ================================================================== *)

Module Logger.
Inductive level : Type := debug | info | warn | error.
End Logger.

(** What a hook does to the outside world, in order. *)
Inductive Event : Type :=
| Log (l : Logger.level) (message : string)
| CallGenerateHtaccessFile
| WriteFile (path : string) (data : list string) (flag : string).

(** [new Set<number>()]: its elements live in the internal slot
    [[SetData]]; it has no own string-keyed property. *)
Module JsSet.

Record t : Type := mk { SetData : list JsNumber.number }.

Definition empty : t := mk [].

Definition has (x : JsNumber.number) (s : t) : bool :=
  existsb (JsNumber.eqb x) (SetData s).

Definition add (x : JsNumber.number) (s : t) : t :=
  if has x s then s else mk (SetData s ++ [x])%list.

(** String-keyed properties of [Set.prototype] and [Object.prototype],
    the prototype chain of a set. *)
Definition Set_prototype_keys : list string :=
  ["constructor"; "has"; "add"; "delete"; "clear"; "entries"; "forEach";
   "size"; "values"; "keys"; "union"; "intersection"; "difference";
   "symmetricDifference"; "isSubsetOf"; "isSupersetOf"; "isDisjointFrom"].

Definition Object_prototype_keys : list string :=
  ["constructor"; "__defineGetter__"; "__defineSetter__"; "hasOwnProperty";
   "__lookupGetter__"; "__lookupSetter__"; "isPrototypeOf";
   "propertyIsEnumerable"; "toString"; "valueOf"; "__proto__";
   "toLocaleString"].

Definition own_keys (s : t) : list string := [].

(** [key in s]: is [key], converted to a property key, a property of
    the object [s] or of its prototype chain? *)
Definition js_in (key : JsNumber.number) (s : t) : bool :=
  existsb (String.eqb (JsNumber.toString key))
    (own_keys s ++ Set_prototype_keys ++ Object_prototype_keys)%list.

End JsSet.

(** The variables that the four rule sources share (lines 92-93), and the
    messages logged so far. *)
Record Run : Type := mkRun {
  error : bool;
  handledErrorCodes : JsSet.t;
  logged : list Event
}.

Definition initial_run : Run := mkRun false JsSet.empty [].

(** State passing over [Run]. *)
Definition M (A : Type) : Type := Run -> A * Run.

Definition ret {A} (a : A) : M A := fun st => (a, st).

Definition bind {A B} (c : M A) (f : A -> M B) : M B :=
  fun st => let (a, st') := c st in f a st'.

Notation "x <- c ;; k" := (bind c (fun x => k))
  (at level 61, c at next level, right associativity).
Notation "c ;; k" := (bind c (fun _ => k))
  (at level 61, right associativity).

Definition get_error : M bool := fun st => (error st, st).

Definition set_error : M unit :=
  fun st => (tt, mkRun true (handledErrorCodes st) (logged st)).

Definition get_handled : M JsSet.t := fun st => (handledErrorCodes st, st).

Definition handled_add (x : JsNumber.number) : M unit :=
  fun st => (tt, mkRun (error st) (JsSet.add x (handledErrorCodes st)) (logged st)).

Definition log (l : Logger.level) (message : string) : M unit :=
  fun st =>
    (tt, mkRun (error st) (handledErrorCodes st) (logged st ++ [Log l message])%list).

(** [arr.map(f)] where [f] has effects. *)
Fixpoint mapM {A B} (f : A -> M B) (l : list A) : M (list B) :=
  match l with
  | [] => ret []
  | x :: l' => y <- f x ;; ys <- mapM f l' ;; ret (y :: ys)
  end.

(** [arr.reduce(f, acc)] where [f] has effects. *)
Fixpoint reduceM {A B} (f : B -> A -> M B) (l : list A) (acc : B) : M B :=
  match l with
  | [] => ret acc
  | x :: l' => acc' <- f acc x ;; reduceM f l' acc'
  end.

(* ================================================================== *)
(** * The four rule sources (lines 94-176) *)
(* ================================================================== *)

(** Line 111, the path written for a user error page. *)
Definition normalize_document (document : string) : string :=
  JsPath.join
    ["/"; if JsString.endsWith document ".html" then document
          else document ++ ".html"].

(** Lines 100-112, the callback of [errorPages.map]. *)
Definition on_errorPage (p : ErrorPage) : M string :=
  err <- get_error ;;
  if err then ret EmptyString
  else
    let c := JsNumber.Nat (ErrorCode_number (code p)) in
    handled <- get_handled ;;
    if JsSet.js_in c handled then
      log Logger.error ("Duplicated error code " ++ JsNumber.toString c ++ " detected!") ;;
      set_error ;;
      ret EmptyString
    else
      handled_add c ;;
      ret ("ErrorDocument " ++ JsNumber.toString c ++ " " ++
           normalize_document (document p)).

(** Line 121. *)
Definition destination_of (r : option RedirectConfig) : option string :=
  match r with
  | Some (RedirectString d) => Some d
  | Some (RedirectObject _ d) => Some d
  | None => None
  end.

(** [acc.push(x)] *)
Definition push {A} (acc : list A) (x : A) : list A := (acc ++ [x])%list.

(** The double-quote character of the warning below. *)
Definition DQUOTE : string := String (ascii_of_nat 34) EmptyString.

(** Lines 117-147, the callback of [routes.reduce]. *)
Definition on_route (errorPages_undefined : bool) (acc : list string)
    (r : RouteData) : M (list string) :=
  err <- get_error ;;
  if err then ret acc
  else
    match type r with
    | RouteType.redirect =>
        match destination_of (redirect r) with
        | Some (String c d) =>
            ret (push acc ("RedirectMatch 301 ^" ++ route r ++
                           "(/(index.html)?)?$ " ++ String c d))
        | _ =>
            log Logger.warn
              ("No destination found for redirect route " ++ DQUOTE ++
               route r ++ DQUOTE ++ "! Skipping.") ;;
            ret acc
        end
    | RouteType.page =>
        if errorPages_undefined then
          match exec errorPageRegex (route r) with
          | Some m =>
              if JsString.truthy (group 1 (captures m)) then
                let c := JsNumber.parseInt (group 1 (captures m)) in
                handled <- get_handled ;;
                if JsSet.js_in c handled then
                  log Logger.error
                    ("Duplicated error code " ++ JsNumber.toString c ++ " detected!") ;;
                  set_error ;;
                  ret acc
                else
                  handled_add c ;;
                  ret (push acc ("ErrorDocument " ++ JsNumber.toString c ++ " " ++
                                 (if JsString.endsWith (route r) ".html"
                                  then route r else route r ++ ".html")))
              else ret acc
          | None => ret acc
          end
        else ret acc
    | _ => ret acc
    end.

(** Lines 157-166 were given above as [translate_regex]; line 167:
    [match.search("\n") > -1]. *)
Definition has_line_break (s : string) : bool :=
  JsString.includes_char JsString.LF s.

Definition redirect_code_text (c : option RedirectCode) : string :=
  match c with
  | Some rc => RedirectCode_text rc
  | None => "301"                          (* [code ?? 301] *)
  end.

(** Lines 152-174, the callback of [redirects.map]. *)
Definition on_redirect (r : Redirect) : M string :=
  err <- get_error ;;
  if err then ret EmptyString
  else
    match redirect_match r with
    | MatchString m =>
        ret ("RedirectMatch " ++ redirect_code_text (redirect_code r) ++ " " ++
             m ++ " " ++ url r)
    | MatchRegExp re =>
        let m := translate_regex re in
        if has_line_break m then
          log Logger.error ("Invalid line break in regex for " ++ url r) ;;
          set_error ;;
          ret EmptyString
        else
          ret ("RedirectMatch " ++ redirect_code_text (redirect_code r) ++ " " ++
               m ++ " " ++ url r)
    end.

(** Line 96. *)
Definition source_customRules (cfg : Config) : M (list string) :=
  ret (match customRules cfg with Some l => l | None => [] end).

(** Lines 98-113: [!error && errorPages ? errorPages.map(...) : []]; an
    array, even an empty one, is truthy. *)
Definition source_errorPages (cfg : Config) : M (list string) :=
  err <- get_error ;;
  match errorPages cfg with
  | Some l => if err then ret [] else mapM on_errorPage l
  | None => ret []
  end.

Definition errorPages_undefined (cfg : Config) : bool :=
  match errorPages cfg with None => true | Some _ => false end.

(** Lines 115-148: [(!error && routes.reduce(...)) || []]. *)
Definition source_routes (cfg : Config) (routes : list RouteData) : M (list string) :=
  err <- get_error ;;
  if err then ret []
  else reduceM (on_route (errorPages_undefined cfg)) routes [].

(** Lines 150-175. *)
Definition source_redirects (cfg : Config) : M (list string) :=
  err <- get_error ;;
  match redirects cfg with
  | Some l => if err then ret [] else mapM on_redirect l
  | None => ret []
  end.

(** Lines 94-178: the four thunks are called in order and their results
    are flattened. *)
Definition synthesize (cfg : Config) (routes : list RouteData) : M (list string) :=
  l1 <- source_customRules cfg ;;
  l2 <- source_errorPages cfg ;;
  l3 <- source_routes cfg routes ;;
  l4 <- source_redirects cfg ;;
  ret (l1 ++ l2 ++ l3 ++ l4)%list.

(* ================================================================== *)
(** * The integration and its two hooks (lines 42-188) *)
(* ================================================================== *)

(** The part of Astro's configuration that [astro:config:setup] reads.
    URLs are represented by their text. *)
Record AstroConfig : Type := mkAstroConfig {
  output : string;
  adapter : option string;                 (* [config.adapter?.name] *)
  root : string;
  base : option string;
  outDir : string;
  build_client : string
}.

(** The variables captured by the hooks (lines 43-44), and the number of
    calls of [generateHtaccessFile] made so far. *)
Record Closure : Type := mkClosure {
  assetsDir : option string;
  enabled : option bool;                   (* [boolean | null] *)
  calls : nat
}.

(** Lines 43-44: [let assetsDir = null; let enabled = true]. *)
Definition integration : Closure := mkClosure None (Some true) 0.

(** Lines 49-56 and 76-83 (the same text in both hooks). *)
Definition resolve_enabled (cfg : Config) (c : Closure)
  : Closure * list Event * bool :=
  match enabled c with
  | Some b => (c, [], b)
  | None =>
      match generateHtaccessFile cfg with
      | None => (mkClosure (assetsDir c) (Some true) (calls c), [], true)
      | Some (GenFunction f) =>
          let b := negb (f (calls c)) in
          (mkClosure (assetsDir c) (Some b) (S (calls c)),
           [CallGenerateHtaccessFile], b)
      | Some (GenBoolean g) =>
          (mkClosure (assetsDir c) (Some (negb g)) (calls c), [], negb g)
      end
  end.

(** [config.base?.replace(...)]: one leading slash is removed; the
    URL constructor turns [undefined] into the text "undefined". *)
Definition base_without_leading_slash (b : option string) : string :=
  match b with
  | Some (String "/" b') => b'
  | Some b' => b'
  | None => "undefined"
  end.

Section Hooks.

(** Functions of Node.js that the hooks call: [fileURLToPath],
    [new URL(input, base)] and [existsSync]. *)
Variable fileURLToPath : string -> string.
Variable URL : string -> string -> string.
Variable existsSync : string -> bool.

(** Lines 48-74. *)
Definition config_setup (cfg : Config) (config : AstroConfig) (c : Closure)
  : Closure * list Event :=
  let '(c, ev, en) := resolve_enabled cfg c in
  if negb en then
    (c, ev ++ [Log Logger.debug
                 "generateHtaccessFile evaluated to false; skipping integration config."])%list
  else if output config =? "server" then
    (c, ev ++ [Log Logger.warn "Cannot generate .htaccess file in SSR mode."])%list
  else
    let dir :=
      match adapter config with
      | Some name =>
          if JsString.startsWith name "@astrojs/vercel" then
            fileURLToPath (URL ".vercel/output/static/" (root config))
          else if name =? "@astrojs/cloudflare" then
            fileURLToPath (URL (base_without_leading_slash (base config))
                             (outDir config))
          else if name =? "@astrojs/node" then
            fileURLToPath (build_client config)
          else fileURLToPath (outDir config)
      | None => fileURLToPath (outDir config)
      end in
    (mkClosure (Some dir) (enabled c) (calls c), ev).

(** Line 182. *)
Definition generated_message (htaccess : list string) : string :=
  "Generated .htaccess with " ++
  JsNumber.toString (JsNumber.Nat (N.of_nat (List.length htaccess))) ++ " " ++
  (if (List.length htaccess =? 1)%nat then "rule" else "rules").

(** Lines 179-183, the write gate.  [path.join] is taken in its POSIX
    form; [writeFile] receives the two chunks in order, with flag [a]. *)
Definition write_gate (dir : string) (htaccess : list string) (st : Run)
  : list Event :=
  if negb (error st) then
    let htaccessPath := JsPath.join [dir; ".htaccess"] in
    [WriteFile htaccessPath
       [if existsSync htaccessPath then String JsString.LF EmptyString
        else EmptyString;
        JsString.join (String JsString.LF EmptyString) htaccess]
       "a";
     Log Logger.info (generated_message htaccess)]
  else [].

(** Lines 75-184. *)
Definition build_done (cfg : Config) (routes : list RouteData) (c : Closure)
  : Closure * list Event :=
  let '(c, ev, en) := resolve_enabled cfg c in
  if negb en then
    (c, ev ++ [Log Logger.debug
                 "generateHtaccessFile evaluated to false; skipping .htaccess generation."])%list
  else
    match assetsDir c with
    | Some (String d0 d) =>
        let (htaccess, st) := synthesize cfg routes initial_run in
        (c, ev ++ logged st ++ write_gate (String d0 d) htaccess st)%list
    | _ =>
        (c, ev ++ [Log Logger.warn "Cannot generate .htaccess file in SSR mode."])%list
    end.

(** One build: the integration is created, then Astro calls the two
    hooks in order. *)
Definition build (cfg : Config) (config : AstroConfig) (routes : list RouteData)
  : Closure * list Event :=
  let (c1, ev1) := config_setup cfg config integration in
  let (c2, ev2) := build_done cfg routes c1 in
  (c2, ev1 ++ ev2)%list.

End Hooks.

(** Is the event a message of the logger? *)
Definition is_log (e : Event) : bool :=
  match e with Log _ _ => true | _ => false end.

(** Is a file written? *)
Definition is_write (e : Event) : bool :=
  match e with WriteFile _ _ _ => true | _ => false end.

Definition writes (evs : list Event) : list Event := filter is_write evs.

(** A computation that adds nothing but logger messages to the events. *)
Definition logs_only {A} (c : M A) : Prop :=
  forall st, Forall (fun e => is_log e = true) (logged st) ->
             Forall (fun e => is_log e = true) (logged (snd (c st))).

(* ================================================================== *)
(** * Sample inputs *)
(* ================================================================== *)

Module Sample.

(** Stand-ins for the functions of Node.js, enough to run a build:
    file URLs of the form [file://<path>]. *)
Definition fileURLToPath (u : string) : string :=
  substring 7 (String.length u) u.

Definition URL (input base : string) : string := base ++ input.

Definition no_file (path : string) : bool := false.

(** A static site built into [/site/dist/]. *)
Definition static_site : AstroConfig :=
  mkAstroConfig "static" None "file:///site/" (Some "/")
    "file:///site/dist/" "file:///site/dist/client/".

Definition build := build fileURLToPath URL no_file.

Definition newline : string := String JsString.LF EmptyString.

(** The configuration of the README, with [generateHtaccessFile]
    as given. *)
Definition readme_config (g : option Generate) : Config :=
  mkConfig g
    (Some [mkErrorPage E404 "/errors/404"])
    (Some [mkRedirect None (MatchRegExp (lit "^\/package@npm$"))
             "https://www.npmjs.com/package/astro-htaccess";
           mkRedirect (Some n302) (MatchString "^/github\b")
             "https://github.com/BadMannersXYZ/astro-htaccess"])
    (Some ["AuthType Basic"; "require valid-user"]).

Definition readme_routes : list RouteData :=
  [mkRoute RouteType.page "/" None;
   mkRoute RouteType.redirect "/faq" (Some (RedirectString "/about_this_project"))].

Definition readme_lines : list string :=
  ["AuthType Basic";
   "require valid-user";
   "ErrorDocument 404 /errors/404.html";
   "RedirectMatch 301 ^/faq(/(index.html)?)?$ /about_this_project";
   "RedirectMatch 301 ^/package@npm$ https://www.npmjs.com/package/astro-htaccess";
   "RedirectMatch 302 ^/github\b https://github.com/BadMannersXYZ/astro-htaccess"].

(** Two user error pages for the same code. *)
Definition duplicate_pages : Config :=
  mkConfig None
    (Some [mkErrorPage E404 "/a"; mkErrorPage E404 "/b"]) None None.

(** Two discovered routes for the same code. *)
Definition duplicate_routes : list RouteData :=
  [mkRoute RouteType.page "/404" None; mkRoute RouteType.page "/404" None].

Definition no_options : Config := mkConfig None None None None.

(** One user redirect whose [match] is a string with a line break. *)
Definition broken_string_match : Redirect :=
  mkRedirect None (MatchString ("^/a" ++ newline ++ "b")) "/c".

Definition string_with_line_break : Config :=
  mkConfig None None (Some [broken_string_match]) None.

(** Two pages, one of them an error page by its route. *)
Definition pages : list RouteData :=
  [mkRoute RouteType.page "/about" None; mkRoute RouteType.page "/404" None].

(** A passthrough line and two user error pages for the same code. *)
Definition rules_and_duplicates : Config :=
  mkConfig None
    (Some [mkErrorPage E500 "/oops"; mkErrorPage E500 "/sorry"]) None
    (Some ["Options -Indexes"]).

End Sample.

(* ================================================================== *)
(** * What each source contributes, as pure functions *)
(* ================================================================== *)

(** The line of one user error page. *)
Definition errorPage_line (p : ErrorPage) : string :=
  "ErrorDocument " ++ JsNumber.toString (JsNumber.Nat (ErrorCode_number (code p))) ++
  " " ++ normalize_document (document p).

(** The lines (none or one) of one route of the generator. *)
Definition route_lines (errorPages_undefined : bool) (r : RouteData) : list string :=
  match type r with
  | RouteType.redirect =>
      match destination_of (redirect r) with
      | Some (String c d) =>
          ["RedirectMatch 301 ^" ++ route r ++ "(/(index.html)?)?$ " ++ String c d]
      | _ => []
      end
  | RouteType.page =>
      if errorPages_undefined then
        match exec errorPageRegex (route r) with
        | Some m =>
            if JsString.truthy (group 1 (captures m)) then
              ["ErrorDocument " ++
               JsNumber.toString (JsNumber.parseInt (group 1 (captures m))) ++ " " ++
               (if JsString.endsWith (route r) ".html"
                then route r else route r ++ ".html")]
            else []
        | None => []
        end
      else []
  | _ => []
  end.

(** The routes that the specification describes for automatic error
    pages: a slash, a digit 3, 4 or 5, two more digits, and nothing else.
    The result is the text of the three digits. *)
Definition status_route (s : string) : option string :=
  match s with
  | String c0 (String a (String b (String c EmptyString))) =>
      if (c0 =? "/")%char && existsb (Ascii.eqb a) ["3"; "4"; "5"]%char &&
         JsNumber.is_digit b && JsNumber.is_digit c
      then Some (String a (String b (String c EmptyString)))
      else None
  | _ => None
  end.

(** The alias mapping in the words of the specification: [permanent] is
    301, [temp] is 302, [seeother] is 303, [gone] is 410, and an omitted
    code is 301. *)
Definition alias_status (c : RedirectCode) : N :=
  match c with
  | permanent | n301 => 301
  | temp | n302 => 302
  | seeother | n303 => 303
  | gone | n410 => 410
  end%N.

Definition effective_status (c : option RedirectCode) : N :=
  match c with Some rc => alias_status rc | None => 301%N end.

(** The pattern written for a [match]. *)
Definition resolved_match (m : Match) : string :=
  match m with
  | MatchString s => s
  | MatchRegExp re => translate_regex re
  end.

(** The line of one user redirect. *)
Definition redirect_line (r : Redirect) : string :=
  "RedirectMatch " ++ redirect_code_text (redirect_code r) ++ " " ++
  resolved_match (redirect_match r) ++ " " ++ url r.

(** The rule is a regular expression whose translation holds a line
    break (the condition of line 167). *)
Definition invalid_line_break (r : Redirect) : bool :=
  match redirect_match r with
  | MatchString _ => false
  | MatchRegExp re => has_line_break (translate_regex re)
  end.

Definition list_of {A} (o : option (list A)) : list A :=
  match o with Some l => l | None => [] end.

(** A segment that [normalize] keeps as it is: not empty, not a dot
    segment, without separator. *)
Definition clean_segment (seg : string) : bool :=
  negb (seg =? EmptyString) && negb (seg =? ".") && negb (seg =? "..") &&
  negb (JsString.includes_char JsPath.SLASH seg).

(** The lines of a run without a fatal conflict, source by source. *)
Definition expected_lines (cfg : Config) (routes : list RouteData) : list string :=
  (list_of (customRules cfg) ++
   map errorPage_line (list_of (errorPages cfg)) ++
   flat_map (route_lines (errorPages_undefined cfg)) routes ++
   map redirect_line (list_of (redirects cfg)))%list.

(** A redirect route of the generator without a usable destination: no
    [redirect] at all, or an empty destination (lines 121-126). *)
Definition skipped_redirect (r : RouteData) : bool :=
  match type r with
  | RouteType.redirect =>
      match destination_of (redirect r) with
      | Some (String _ _) => false
      | _ => true
      end
  | _ => false
  end.

(** The warning of line 125. *)
Definition skipped_warning (r : RouteData) : Event :=
  Log Logger.warn
    ("No destination found for redirect route " ++ DQUOTE ++ route r ++
     DQUOTE ++ "! Skipping.").

(** The warnings of a route table, in its order. *)
Definition route_warnings (routes : list RouteData) : list Event :=
  map skipped_warning (filter skipped_redirect routes).

(** The error of line 168. *)
Definition line_break_error (r : Redirect) : Event :=
  Log Logger.error ("Invalid line break in regex for " ++ url r).

(** A route with the status of its redirect descriptor forgotten. *)
Definition forget_status (r : RouteData) : RouteData :=
  match redirect r with
  | Some (RedirectObject _ d) => mkRoute (type r) (route r) (Some (RedirectString d))
  | _ => r
  end.


(* ================================================================== *)
(** * Lemmas on strings: suffixes, [split] and [join] *)
(* ================================================================== *)

Section StringFacts.

Import JsString.

Lemma append_empty_r (s : string) : s ++ EmptyString = s.
Proof. induction s as [|c s IH]; cbn; [reflexivity | now rewrite IH]. Qed.

Lemma append_assoc (a b c : string) : (a ++ b) ++ c = a ++ (b ++ c).
Proof. induction a as [|x a IH]; cbn; [reflexivity | now rewrite IH]. Qed.

Lemma endsWith_eq (s suf : string) :
  endsWith s suf =
  (s =? suf) ||
  match s with EmptyString => false | String _ s' => endsWith s' suf end.
Proof. destruct s; reflexivity. Qed.

Lemma endsWith_refl (s : string) : endsWith s s = true.
Proof. rewrite endsWith_eq, String.eqb_refl. reflexivity. Qed.

Lemma endsWith_app (a b : string) : endsWith (a ++ b) b = true.
Proof.
  induction a as [|c a IH]; cbn [append].
  - apply endsWith_refl.
  - rewrite endsWith_eq, IH. apply orb_true_r.
Qed.

Lemma endsWith_inv (s suf : string) :
  endsWith s suf = true -> exists y, s = y ++ suf.
Proof.
  induction s as [|c s IH]; rewrite endsWith_eq; intros H.
  - rewrite orb_false_r in H. apply String.eqb_eq in H. subst.
    exists EmptyString. reflexivity.
  - apply orb_true_iff in H as [H|H].
    + apply String.eqb_eq in H. exists EmptyString. cbn. congruence.
    + destruct (IH H) as [y ->]. exists (String c y). reflexivity.
Qed.

Lemma includes_char_app (c : ascii) (a b : string) :
  includes_char c (a ++ b) = includes_char c a || includes_char c b.
Proof.
  induction a as [|x a IH]; cbn; [reflexivity|].
  rewrite IH. apply orb_assoc.
Qed.

(** Segments hold no separator. *)
Lemma split_no_sep (sep : ascii) (s : string) :
  Forall (fun x => includes_char sep x = false) (split sep s).
Proof.
  induction s as [|c s IH]; cbn.
  - constructor; [reflexivity | constructor].
  - destruct (c =? sep)%char eqn:E.
    + constructor; [reflexivity | exact IH].
    + destruct (split sep s) as [|h t]; [constructor; [|constructor]|].
      * cbn. rewrite E. reflexivity.
      * inversion IH; subst. constructor; [|assumption].
        cbn. rewrite E. assumption.
Qed.

Lemma split_single (sep : ascii) (x : string) :
  includes_char sep x = false -> split sep x = [x].
Proof.
  induction x as [|c x IH]; cbn; [reflexivity|].
  intros H. apply orb_false_iff in H as [Hc Hx].
  rewrite Hc, (IH Hx). reflexivity.
Qed.

Lemma split_app_sep (sep : ascii) (x rest : string) :
  includes_char sep x = false ->
  split sep (x ++ String sep rest) = x :: split sep rest.
Proof.
  induction x as [|c x IH]; cbn.
  - intros _. rewrite Ascii.eqb_refl. reflexivity.
  - intros H. apply orb_false_iff in H as [Hc Hx].
    rewrite Hc, (IH Hx). reflexivity.
Qed.

(** [split] undoes [join] on segments without separator. *)
Lemma split_join (sep : ascii) (segs : list string) :
  segs <> [] ->
  Forall (fun x => includes_char sep x = false) segs ->
  split sep (join (String sep EmptyString) segs) = segs.
Proof.
  unfold join.
  induction segs as [|x segs IH]; [congruence|].
  intros _ HF. inversion HF as [|? ? Hx Hrest]; subst.
  destruct segs as [|y segs].
  - cbn. apply split_single. assumption.
  - change (String.concat (String sep EmptyString) (x :: y :: segs))
      with (x ++ String sep (String.concat (String sep EmptyString) (y :: segs))).
    rewrite split_app_sep by assumption.
    rewrite IH by (assumption || discriminate). reflexivity.
Qed.

(** The last segment of a string with a separator-free suffix ends with
    that suffix. *)
Lemma split_app_suffix (sep : ascii) (y suf : string) :
  includes_char sep suf = false ->
  exists init z, split sep (y ++ suf) = List.app init [z ++ suf].
Proof.
  intros Hs. induction y as [|c y (init & z & IH)]; cbn.
  - exists [], EmptyString. cbn. apply split_single. assumption.
  - destruct (c =? sep)%char.
    + exists (EmptyString :: init), z. rewrite IH. reflexivity.
    + rewrite IH. destruct init as [|h t]; cbn.
      * exists [], (String c z). reflexivity.
      * exists (String c h :: t), z. reflexivity.
Qed.

Lemma join_last (sep : string) (l : list string) (x : string) :
  exists pre, join sep (l ++ [x])%list = pre ++ x.
Proof.
  unfold join. induction l as [|h l (pre & IH)].
  - exists EmptyString. reflexivity.
  - destruct l as [|h' l].
    + exists (h ++ sep). cbn. rewrite append_assoc. reflexivity.
    + exists (h ++ sep ++ pre).
      change (String.concat sep ((h :: h' :: l) ++ [x])%list)
        with (h ++ sep ++ String.concat sep ((h' :: l) ++ [x])%list).
      rewrite IH, !append_assoc. reflexivity.
Qed.

End StringFacts.

(* ================================================================== *)
(** * Lemmas on [path.posix.join] *)
(* ================================================================== *)

Section PathFacts.

Import JsString JsPath.

Lemma string_length_app (a b : string) :
  String.length (a ++ b) = String.length a + String.length b.
Proof. induction a as [|c a IH]; cbn; [reflexivity | now rewrite IH]. Qed.

Lemma eqb_length_neq (a b : string) :
  String.length a <> String.length b -> (a =? b) = false.
Proof.
  intros H. destruct (String.eqb_spec a b) as [->|]; [congruence | reflexivity].
Qed.

Lemma clean_resolve_step (stack : list string) (seg : string) :
  clean_segment seg = true -> resolve_step false stack seg = seg :: stack.
Proof.
  unfold clean_segment, resolve_step. intros H.
  apply andb_true_iff in H as [H _].
  apply andb_true_iff in H as [H H3].
  apply andb_true_iff in H as [H1 H2].
  apply negb_true_iff in H1, H2, H3. rewrite H1, H2, H3. reflexivity.
Qed.

Lemma fold_clean (segs stack : list string) :
  Forall (fun x => clean_segment x = true) segs ->
  fold_left (resolve_step false) segs stack = (rev segs ++ stack)%list.
Proof.
  revert stack. induction segs as [|x segs IH]; intros stack HF; cbn.
  - reflexivity.
  - inversion HF; subst. rewrite clean_resolve_step by assumption.
    rewrite IH by assumption. rewrite <- app_assoc. reflexivity.
Qed.

(** Clean segments pass through [normalize] unchanged. *)
Lemma resolve_clean_id (segs : list string) :
  Forall (fun x => clean_segment x = true) segs -> resolve false segs = segs.
Proof.
  intros HF. unfold resolve. rewrite fold_clean by assumption.
  rewrite app_nil_r. apply rev_involutive.
Qed.

Lemma resolve_step_keeps_clean (stack : list string) (seg : string) :
  includes_char SLASH seg = false ->
  Forall (fun x => clean_segment x = true) stack ->
  Forall (fun x => clean_segment x = true) (resolve_step false stack seg).
Proof.
  intros Hs HF. unfold resolve_step.
  destruct (seg =? EmptyString) eqn:E1; [assumption|].
  destruct (seg =? ".") eqn:E2; [assumption|]. cbn [orb].
  destruct (seg =? "..") eqn:E3.
  - destruct stack as [|top below]; [constructor|].
    inversion HF; subst.
    destruct (top =? "..") eqn:Et; [|assumption].
    unfold clean_segment in H1. rewrite Et in H1. cbn [negb] in H1.
    rewrite andb_false_r in H1. discriminate.
  - constructor; [|assumption].
    unfold clean_segment. rewrite E1, E2, E3, Hs. reflexivity.
Qed.

Lemma fold_keeps_clean (segs stack : list string) :
  Forall (fun x => includes_char SLASH x = false) segs ->
  Forall (fun x => clean_segment x = true) stack ->
  Forall (fun x => clean_segment x = true)
    (fold_left (resolve_step false) segs stack).
Proof.
  revert stack. induction segs as [|x segs IH]; intros stack Hs HF; cbn.
  - assumption.
  - inversion Hs; subst. apply IH; [assumption|].
    apply resolve_step_keeps_clean; assumption.
Qed.

(** What [normalize] keeps of an absolute path is clean. *)
Lemma resolve_all_clean (segs : list string) :
  Forall (fun x => includes_char SLASH x = false) segs ->
  Forall (fun x => clean_segment x = true) (resolve false segs).
Proof.
  intros Hs. unfold resolve. apply Forall_rev.
  apply fold_keeps_clean; [assumption | constructor].
Qed.

Lemma resolve_app_last (init : list string) (last : string) :
  clean_segment last = true ->
  resolve false (init ++ [last])%list = (resolve false init ++ [last])%list.
Proof.
  intros Hc. unfold resolve. rewrite fold_left_app. cbn [fold_left].
  rewrite clean_resolve_step by assumption. reflexivity.
Qed.

Lemma html_suffix_clean (z : string) :
  includes_char SLASH (z ++ ".html") = false ->
  clean_segment (z ++ ".html") = true.
Proof.
  intros Hs. unfold clean_segment. rewrite Hs.
  rewrite !eqb_length_neq; [reflexivity | | |];
    rewrite string_length_app; cbn; lia.
Qed.

Lemma html_suffix_no_trailing_slash (y : string) :
  lastChar_is SLASH (y ++ ".html") = false.
Proof.
  unfold lastChar_is. induction y as [|c y IH].
  - reflexivity.
  - cbn [append]. rewrite endsWith_eq, IH, orb_false_r.
    apply eqb_length_neq. cbn. rewrite string_length_app. cbn. lia.
Qed.

Lemma join_clean_nonempty (segs : list string) :
  segs <> [] -> Forall (fun x => clean_segment x = true) segs ->
  exists c b, JsString.join "/" segs = String c b.
Proof.
  intros Hn HF. destruct segs as [|x segs]; [congruence|].
  inversion HF as [|? ? Hx _]; subst.
  destruct x as [|c x]; [discriminate|].
  unfold JsString.join. destruct segs; cbn; eauto.
Qed.

Lemma clean_no_slash (segs : list string) :
  Forall (fun x => clean_segment x = true) segs ->
  Forall (fun x => includes_char SLASH x = false) segs.
Proof.
  apply Forall_impl. intros x H. unfold clean_segment in H.
  apply andb_true_iff in H as [_ H]. apply negb_true_iff in H. exact H.
Qed.

Lemma split_cons_sep (sep : ascii) (p : string) :
  split sep (String sep p) = EmptyString :: split sep p.
Proof. cbn [split]. rewrite Ascii.eqb_refl. reflexivity. Qed.

Lemma resolve_skip_empty (a : bool) (segs : list string) :
  resolve a (EmptyString :: segs) = resolve a segs.
Proof. reflexivity. Qed.

(** [normalize] on an absolute path whose kept segments are known. *)
Lemma normalize_absolute (p : string) (segs : list string) :
  resolve false (split SLASH p) = segs ->
  segs <> [] -> Forall (fun x => clean_segment x = true) segs ->
  lastChar_is SLASH (String SLASH p) = false ->
  normalize (String SLASH p) = "/" ++ JsString.join "/" segs.
Proof.
  intros Hr Hn HF Ht. unfold normalize. rewrite Ht.
  rewrite !Ascii.eqb_refl. cbn [negb].
  rewrite split_cons_sep, resolve_skip_empty, Hr.
  destruct (join_clean_nonempty segs Hn HF) as (c & b & ->).
  rewrite append_empty_r. reflexivity.
Qed.

(** The shape of [join("/", x)] when [x] ends with [.html]. *)
Lemma join_root_shape (x : string) :
  endsWith x ".html" = true ->
  exists segs,
    segs <> [] /\ Forall (fun s => clean_segment s = true) segs /\
    JsPath.join ["/"; x] = "/" ++ JsString.join "/" segs /\
    endsWith (JsString.join "/" segs) ".html" = true.
Proof.
  intros Hx. destruct (endsWith_inv _ _ Hx) as [y ->].
  destruct (split_app_suffix SLASH (String "/" y) ".html" eq_refl)
    as (init & z & Hsplit).
  pose proof (split_no_sep SLASH (String "/" y ++ ".html")) as Hns.
  rewrite Hsplit in Hns.
  assert (Hlast : clean_segment (z ++ ".html") = true).
  { apply html_suffix_clean.
    apply Forall_app in Hns as [_ Hns]. inversion Hns; assumption. }
  exists (List.app (resolve false init) [z ++ ".html"]).
  assert (Hclean : Forall (fun s => clean_segment s = true)
                     (List.app (resolve false init) [z ++ ".html"])).
  { rewrite <- resolve_app_last by assumption.
    apply resolve_all_clean. assumption. }
  split; [destruct (resolve false init); discriminate|].
  split; [assumption|]. split.
  - assert (E : JsPath.join ["/"; y ++ ".html"] =
                normalize (String SLASH (String "/" y ++ ".html"))).
    { unfold JsPath.join. destruct y; reflexivity. }
    rewrite E. apply normalize_absolute.
    + rewrite Hsplit. apply resolve_app_last. assumption.
    + destruct (resolve false init); discriminate.
    + assumption.
    + apply (html_suffix_no_trailing_slash (String SLASH (String "/" y))).
  - destruct (join_last "/" (resolve false init) (z ++ ".html")) as [pre ->].
    rewrite <- append_assoc. apply endsWith_app.
Qed.

(** A path made of clean segments that ends with [.html] is a fixed
    point of [join("/", _)]. *)
Lemma join_root_fixed (segs : list string) :
  segs <> [] -> Forall (fun s => clean_segment s = true) segs ->
  endsWith (JsString.join "/" segs) ".html" = true ->
  JsPath.join ["/"; "/" ++ JsString.join "/" segs] = "/" ++ JsString.join "/" segs.
Proof.
  intros Hn HF He.
  change (JsPath.join ["/"; "/" ++ JsString.join "/" segs])
    with (normalize (String SLASH (String "/" (String "/" (JsString.join "/" segs))))).
  apply normalize_absolute; try assumption.
  - change (String "/" (String "/" (JsString.join "/" segs)))
      with (String SLASH (String SLASH
              (JsString.join (String SLASH EmptyString) segs))).
    rewrite !split_cons_sep, !resolve_skip_empty.
    rewrite (split_join SLASH segs Hn (clean_no_slash segs HF)).
    apply resolve_clean_id. assumption.
  - destruct (endsWith_inv _ _ He) as [y ->].
    apply (html_suffix_no_trailing_slash
             (String SLASH (String "/" (String "/" y)))).
Qed.

End PathFacts.

(* ================================================================== *)
(** * Lemmas on the shared state *)
(* ================================================================== *)

#[local] Arguments JsSet.js_in : simpl never.
#[local] Arguments JsNumber.toString : simpl never.
#[local] Arguments JsNumber.parseInt : simpl never.
#[local] Arguments JsString.endsWith : simpl never.
#[local] Arguments normalize_document : simpl never.
#[local] Arguments translate_regex : simpl never.
#[local] Arguments exec : simpl never.
#[local] Arguments String.append : simpl never.

(** A number is never a property name of a set object: its decimal text
    starts with a digit (or it is the text NaN), and no property of the
    prototype chain does. *)
Lemma js_in_false (x : JsNumber.number) (s : JsSet.t) : JsSet.js_in x s = false.
Proof.
  unfold JsSet.js_in, JsSet.own_keys.
  destruct x as [|n]; [reflexivity|].
  unfold JsNumber.toString.
  destruct (N.to_uint n); reflexivity.
Qed.

Lemma on_errorPage_run (p : ErrorPage) (st : Run) :
  error st = false ->
  exists st', on_errorPage p st = (errorPage_line p, st') /\
              error st' = false /\ logged st' = logged st.
Proof.
  intros He. unfold on_errorPage, bind, get_error, get_handled.
  rewrite He, js_in_false. cbn.
  eexists; split; [reflexivity|]. cbn. auto.
Qed.

Lemma mapM_on_errorPage_run (l : list ErrorPage) (st : Run) :
  error st = false ->
  exists st', mapM on_errorPage l st = (map errorPage_line l, st') /\
              error st' = false /\ logged st' = logged st.
Proof.
  revert st. induction l as [|p l IH]; intros st He; cbn.
  - exists st. auto.
  - unfold bind at 1.
    destruct (on_errorPage_run p st He) as (st1 & E1 & He1 & Hl1).
    rewrite E1. unfold bind at 1.
    destruct (IH st1 He1) as (st2 & E2 & He2 & Hl2).
    rewrite E2. cbn. exists st2. repeat split; congruence.
Qed.

Ltac run_done :=
  rewrite ?app_nil_r; eexists; split; [reflexivity | cbn; assumption].

Lemma on_route_run (u : bool) (acc : list string) (r : RouteData) (st : Run) :
  error st = false ->
  exists st', on_route u acc r st = ((acc ++ route_lines u r)%list, st') /\
              error st' = false.
Proof.
  intros He. unfold on_route, route_lines, bind, get_error, get_handled, push.
  rewrite He.
  destruct (type r); cbn; try run_done.
  - destruct u; cbn; [|run_done].
    destruct (exec errorPageRegex (route r)) as [m|]; cbn; [|run_done].
    destruct (JsString.truthy (group 1 (captures m))); cbn; [|run_done].
    rewrite js_in_false. cbn. run_done.
  - destruct (destination_of (redirect r)) as [[|c d]|]; cbn; run_done.
Qed.

Lemma reduceM_on_route_run (u : bool) (routes : list RouteData)
    (acc : list string) (st : Run) :
  error st = false ->
  exists st', reduceM (on_route u) routes acc st =
                ((acc ++ flat_map (route_lines u) routes)%list, st') /\
              error st' = false.
Proof.
  revert acc st. induction routes as [|r routes IH]; intros acc st He; cbn.
  - run_done.
  - unfold bind at 1.
    destruct (on_route_run u acc r st He) as (st1 & E1 & He1).
    rewrite E1.
    destruct (IH (acc ++ route_lines u r)%list st1 He1) as (st2 & E2 & He2).
    rewrite E2, <- app_assoc. exists st2. split; [reflexivity | assumption].
Qed.

Lemma on_redirect_run (r : Redirect) (st : Run) :
  error st = false -> invalid_line_break r = false ->
  on_redirect r st = (redirect_line r, st).
Proof.
  intros He Hv. unfold on_redirect, redirect_line, invalid_line_break, bind, get_error in *.
  rewrite He.
  destruct (redirect_match r) as [m|re]; cbn; [reflexivity|].
  rewrite Hv. reflexivity.
Qed.

Lemma mapM_on_redirect_run (l : list Redirect) (st : Run) :
  error st = false -> forallb (fun r => negb (invalid_line_break r)) l = true ->
  mapM on_redirect l st = (map redirect_line l, st).
Proof.
  intros He. induction l as [|r l IH]; cbn; intros Hv; [reflexivity|].
  apply andb_true_iff in Hv as [Hr Hl]. apply negb_true_iff in Hr.
  unfold bind at 1. rewrite (on_redirect_run r st He Hr).
  unfold bind at 1. rewrite (IH Hl). reflexivity.
Qed.

(** Once the flag is set, the remaining redirects yield empty strings and
    the flag stays set. *)
Lemma mapM_on_redirect_after_error (l : list Redirect) (st : Run) :
  error st = true ->
  mapM on_redirect l st = (map (fun _ => EmptyString) l, st).
Proof.
  intros He. induction l as [|r l IH]; cbn; [reflexivity|].
  unfold bind at 1. unfold on_redirect at 1, bind at 1, get_error at 1.
  rewrite He. cbn. unfold bind at 1. rewrite IH. reflexivity.
Qed.

Lemma mapM_on_redirect_error (l : list Redirect) (st : Run) :
  error st = false ->
  error (snd (mapM on_redirect l st)) = existsb invalid_line_break l.
Proof.
  revert st. induction l as [|r l IH]; intros st He; cbn; [exact He|].
  destruct (invalid_line_break r) eqn:Hv; cbn.
  - unfold bind at 1. unfold on_redirect at 1, bind at 1, get_error at 1.
    rewrite He. unfold invalid_line_break in Hv.
    destruct (redirect_match r) as [m|re]; [discriminate|].
    rewrite Hv. cbn. unfold bind at 1.
    rewrite mapM_on_redirect_after_error by reflexivity. reflexivity.
  - unfold bind at 1. rewrite (on_redirect_run r st He Hv).
    unfold bind at 1.
    specialize (IH st He). destruct (mapM on_redirect l st). exact IH.
Qed.

Lemma no_invalid_forallb (l : list Redirect) :
  existsb invalid_line_break l = false ->
  forallb (fun r => negb (invalid_line_break r)) l = true.
Proof.
  induction l as [|r l IH]; cbn; [reflexivity|].
  intros H. apply orb_false_iff in H as [Hr Hl].
  rewrite Hr, (IH Hl). reflexivity.
Qed.

(** The first three sources never set the flag; they produce their lines
    in order. *)
Lemma first_three_sources (cfg : Config) (routes : list RouteData) (st : Run) :
  error st = false ->
  exists st1 st2,
    source_errorPages cfg st = (map errorPage_line (list_of (errorPages cfg)), st1) /\
    error st1 = false /\
    source_routes cfg routes st1 =
      (flat_map (route_lines (errorPages_undefined cfg)) routes, st2) /\
    error st2 = false.
Proof.
  intros He.
  assert (H1 : exists st1,
             source_errorPages cfg st =
               (map errorPage_line (list_of (errorPages cfg)), st1) /\
             error st1 = false).
  { unfold source_errorPages, bind, get_error. rewrite He.
    destruct (errorPages cfg) as [l|]; cbn.
    - destruct (mapM_on_errorPage_run l st He) as (st1 & E & He1 & _).
      exists st1. auto.
    - exists st. auto. }
  destruct H1 as (st1 & E1 & He1).
  exists st1.
  unfold source_routes, bind, get_error. rewrite He1.
  destruct (reduceM_on_route_run (errorPages_undefined cfg) routes [] st1 He1)
    as (st2 & E2 & He2).
  exists st2. cbn in E2. auto.
Qed.

(** The flag at the end of [synthesize] tells whether some user redirect
    is a regular expression with a line break. *)
Lemma synthesize_error (cfg : Config) (routes : list RouteData) (st : Run) :
  error st = false ->
  error (snd (synthesize cfg routes st)) =
  existsb invalid_line_break (list_of (redirects cfg)).
Proof.
  intros He.
  destruct (first_three_sources cfg routes st He) as (st1 & st2 & E1 & He1 & E2 & He2).
  unfold synthesize, source_customRules. unfold bind at 1. unfold ret at 1.
  unfold bind at 1. rewrite E1. unfold bind at 1. rewrite E2.
  unfold bind at 1. unfold source_redirects, bind at 1, get_error. rewrite He2.
  destruct (redirects cfg) as [l|]; cbn; [|exact He2].
  pose proof (mapM_on_redirect_error l st2 He2) as H.
  destruct (mapM on_redirect l st2). exact H.
Qed.

(** Without such a redirect, the lines are those of the four sources in
    order. *)
Lemma synthesize_lines (cfg : Config) (routes : list RouteData) (st : Run) :
  error st = false ->
  existsb invalid_line_break (list_of (redirects cfg)) = false ->
  fst (synthesize cfg routes st) = expected_lines cfg routes.
Proof.
  intros He Hv.
  destruct (first_three_sources cfg routes st He) as (st1 & st2 & E1 & He1 & E2 & He2).
  unfold synthesize, source_customRules. unfold bind at 1. unfold ret at 1.
  unfold bind at 1. rewrite E1. unfold bind at 1. rewrite E2.
  unfold bind at 1. unfold source_redirects, bind at 1, get_error. rewrite He2.
  unfold expected_lines.
  destruct (redirects cfg) as [l|]; cbn; [|reflexivity].
  cbn in Hv. rewrite (mapM_on_redirect_run l st2 He2 (no_invalid_forallb l Hv)).
  reflexivity.
Qed.

(* ================================================================== *)
(** * Lemmas on the two regular expressions *)
(* ================================================================== *)

Lemma is_digit_cases (c : ascii) :
  JsNumber.is_digit c = true ->
  In c ["0"; "1"; "2"; "3"; "4"; "5"; "6"; "7"; "8"; "9"]%char.
Proof.
  destruct c as [[] [] [] [] [] [] [] []]; intros H;
    try discriminate H; cbn; tauto.
Qed.

Lemma status_digits_cases (s ds : string) :
  status_route s = Some ds ->
  exists a b c,
    s = String "/" ds /\ ds = String a (String b (String c EmptyString)) /\
    In a ["3"; "4"; "5"]%char /\
    In b ["0"; "1"; "2"; "3"; "4"; "5"; "6"; "7"; "8"; "9"]%char /\
    In c ["0"; "1"; "2"; "3"; "4"; "5"; "6"; "7"; "8"; "9"]%char.
Proof.
  unfold status_route.
  destruct s as [|c0 [|a [|b [|c [|? ?]]]]]; try discriminate.
  destruct (c0 =? "/")%char eqn:E0; [|discriminate]. cbn [andb].
  destruct (existsb (Ascii.eqb a) ["3"; "4"; "5"]%char) eqn:Ea; [|discriminate].
  destruct (JsNumber.is_digit b) eqn:Eb; [|discriminate].
  destruct (JsNumber.is_digit c) eqn:Ec; [|discriminate].
  cbn. intros H. injection H as <-.
  apply Ascii.eqb_eq in E0. subst c0.
  exists a, b, c. repeat split; try (apply is_digit_cases; assumption).
  apply existsb_exists in Ea as (x & Hin & Hx).
  apply Ascii.eqb_eq in Hx. subst x. exact Hin.
Qed.

(** On such a route the regular expression of line 39 matches, group 1
    is the three digits, [parseInt] and the template literal give the
    digits back, and the route does not end with [.html]. *)
Lemma status_route_line (s ds : string) :
  status_route s = Some ds ->
  route_lines true (mkRoute RouteType.page s None) =
  ["ErrorDocument " ++ ds ++ " " ++ s ++ ".html"].
Proof.
  intros H.
  destruct (status_digits_cases s ds H) as (a & b & c & -> & -> & Ha & Hb & Hc).
  cbn in Ha, Hb, Hc.
  repeat match goal with
         | H : _ \/ _ |- _ => destruct H as [H|H]
         | H : False |- _ => destruct H
         | H : _ = _ |- _ => subst
         end; vm_compute; reflexivity.
Qed.

#[local] Arguments Ascii.eqb : simpl never.
#[local] Arguments JsNumber.is_digit : simpl never.
#[local] Arguments existsb : simpl never.

(** A pattern that starts with [^] matches at index 0 only. *)
Lemma exec_from_bol (r : regex) (s : string) (i : nat) :
  exec_from (Rseq Rbol r) (S i) s = None.
Proof.
  revert i. induction s as [|c s IH]; intros i; cbn; [reflexivity | apply IH].
Qed.

(** The regular expression of line 39 accepts exactly the routes of
    [status_route], and group 1 is the text of the digits. *)
Lemma exec_errorPageRegex (s : string) :
  exec errorPageRegex s =
  match status_route s with
  | Some ds => Some (MState 4 EmptyString [(1, ds)])
  | None => None
  end.
Proof.
  unfold exec, errorPageRegex, status_route.
  destruct s as [|c0 s]; [reflexivity|].
  cbn [exec_from]. rewrite exec_from_bol.
  unfold match_at. cbn.
  rewrite (Ascii.eqb_sym "/"%char c0).
  destruct (c0 =? "/")%char; [|destruct s as [|? [|? [|? [|? ?]]]]; reflexivity].
  destruct s as [|a s]; [reflexivity|]. cbn.
  unfold class_test. cbn [xorb].
  destruct (existsb (Ascii.eqb a) ["3"; "4"; "5"]%char);
    [|destruct s as [|? [|? [|? ?]]]; reflexivity].
  destruct s as [|b s]; [reflexivity|]. cbn.
  destruct (JsNumber.is_digit b);
    [|destruct s as [|? [|? ?]]; reflexivity].
  destruct s as [|c s]; [reflexivity|]. cbn.
  destruct (JsNumber.is_digit c); [|destruct s; reflexivity].
  destruct s; reflexivity.
Qed.

(** A page route contributes a line exactly when its route is a status
    route; the line carries the digits and the route with [.html]. *)
Lemma page_route_lines (r : RouteData) :
  type r = RouteType.page ->
  route_lines true r =
  match status_route (route r) with
  | Some ds => ["ErrorDocument " ++ ds ++ " " ++ route r ++ ".html"]
  | None => []
  end.
Proof.
  intros Ht. destruct (status_route (route r)) as [ds|] eqn:E.
  - rewrite <- (status_route_line (route r) ds E).
    unfold route_lines. rewrite Ht. reflexivity.
  - unfold route_lines. rewrite Ht, exec_errorPageRegex, E. reflexivity.
Qed.

(** Every space is replaced by the last step of the translation. *)
Lemma replaceAll_space_free (s : string) :
  JsString.includes_char " " (JsString.replaceAll s " " "%20") = false.
Proof.
  unfold JsString.replaceAll.
  induction s as [|c s IH]; [reflexivity|].
  cbn [JsString.replaceAll_from prefix].
  destruct (ascii_dec " " c) as [<-|Hc].
  - assert (Hp : prefix EmptyString s = true) by (destruct s; reflexivity).
    rewrite Hp. change (String.length " " - 1) with 0.
    rewrite includes_char_app, IH. reflexivity.
  - cbn [JsString.includes_char]. rewrite IH, orb_false_r.
    apply Ascii.eqb_neq. congruence.
Qed.

(* ================================================================== *)
(** * The sources only log *)
(* ================================================================== *)

Lemma logs_only_ret {A} (a : A) : logs_only (ret a).
Proof. intros st H. exact H. Qed.

Lemma logs_only_bind {A B} (c : M A) (f : A -> M B) :
  logs_only c -> (forall a, logs_only (f a)) -> logs_only (bind c f).
Proof.
  intros Hc Hf st H. unfold bind. specialize (Hc st H).
  destruct (c st) as [a st1]. apply Hf. exact Hc.
Qed.

Lemma logs_only_log (l : Logger.level) (msg : string) : logs_only (log l msg).
Proof.
  intros st H. cbn. apply Forall_app. split; [exact H|].
  constructor; [reflexivity | constructor].
Qed.

Lemma logs_only_mapM {A B} (f : A -> M B) (l : list A) :
  (forall x, logs_only (f x)) -> logs_only (mapM f l).
Proof.
  intros Hf. induction l as [|x l IH]; cbn [mapM].
  - apply logs_only_ret.
  - apply logs_only_bind; [apply Hf|]. intros y.
    apply logs_only_bind; [exact IH|]. intros ys. apply logs_only_ret.
Qed.

Lemma logs_only_reduceM {A B} (f : B -> A -> M B) (l : list A) (acc : B) :
  (forall b x, logs_only (f b x)) -> logs_only (reduceM f l acc).
Proof.
  intros Hf. revert acc. induction l as [|x l IH]; intros acc; cbn [reduceM].
  - apply logs_only_ret.
  - apply logs_only_bind; [apply Hf|]. intros acc'. apply IH.
Qed.

(** Splits a computation into its primitive steps. *)
Ltac logs_only_tac :=
  repeat first
    [ apply logs_only_ret
    | apply logs_only_log
    | (intros st H; exact H)
    | (apply logs_only_bind; [|intros ?])
    | match goal with
      | |- logs_only (if ?b then _ else _) => destruct b
      | |- logs_only (match ?x with _ => _ end) => destruct x
      end ].

Lemma logs_only_on_errorPage (p : ErrorPage) : logs_only (on_errorPage p).
Proof. unfold on_errorPage. logs_only_tac. Qed.

Lemma logs_only_on_route (u : bool) (acc : list string) (r : RouteData) :
  logs_only (on_route u acc r).
Proof. unfold on_route. logs_only_tac. Qed.

Lemma logs_only_on_redirect (r : Redirect) : logs_only (on_redirect r).
Proof. unfold on_redirect. logs_only_tac. Qed.

Lemma logs_only_synthesize (cfg : Config) (routes : list RouteData) :
  logs_only (synthesize cfg routes).
Proof.
  unfold synthesize, source_customRules, source_errorPages, source_routes,
    source_redirects.
  repeat first
    [ apply logs_only_mapM; intros ?
    | apply logs_only_reduceM; intros ? ?
    | apply logs_only_on_errorPage
    | apply logs_only_on_route
    | apply logs_only_on_redirect
    | apply logs_only_ret
    | (intros st H; exact H)
    | (apply logs_only_bind; [|intros ?])
    | match goal with
      | |- logs_only (if ?b then _ else _) => destruct b
      | |- logs_only (match ?x with _ => _ end) => destruct x
      end ].
Qed.

Lemma logs_have_no_write (evs : list Event) :
  Forall (fun e => is_log e = true) evs -> writes evs = [].
Proof.
  induction 1 as [|e evs He _ IH]; [reflexivity|].
  unfold writes in *. cbn. destruct e; try discriminate. exact IH.
Qed.

Lemma logs_have_no_call (evs : list Event) :
  Forall (fun e => is_log e = true) evs -> ~ In CallGenerateHtaccessFile evs.
Proof.
  intros H Hin. rewrite Forall_forall in H. specialize (H _ Hin). discriminate.
Qed.

(* ================================================================== *)
(** * Lemmas on the hooks *)
(* ================================================================== *)

Section HookFacts.

Variable fileURLToPath : string -> string.
Variable URL : string -> string -> string.
Variable existsSync : string -> bool.

(** The closure starts with [enabled = true], so the setup hook never
    looks at [generateHtaccessFile]. *)
Lemma config_setup_integration (cfg : Config) (config : AstroConfig) :
  exists dir ev,
    config_setup fileURLToPath URL cfg config integration =
      (mkClosure dir (Some true) 0, ev) /\
    Forall (fun e => is_log e = true) ev /\
    forall cfg',
      config_setup fileURLToPath URL cfg' config integration =
        (mkClosure dir (Some true) 0, ev).
Proof.
  unfold config_setup, resolve_enabled, integration. cbn.
  destruct (output config =? "server").
  - do 2 eexists. split; [reflexivity|]. split; [|reflexivity].
    constructor; [reflexivity | constructor].
  - do 2 eexists. split; [reflexivity|]. split; [constructor | reflexivity].
Qed.

(** With [enabled] already resolved to [true], the second hook goes
    straight to the synthesis. *)
Lemma build_done_enabled (cfg : Config) (routes : list RouteData) (c : Closure) :
  enabled c = Some true ->
  build_done existsSync cfg routes c =
  (c,
   match assetsDir c with
   | Some (String d0 d) =>
       (logged (snd (synthesize cfg routes initial_run)) ++
        write_gate existsSync (String d0 d)
          (fst (synthesize cfg routes initial_run))
          (snd (synthesize cfg routes initial_run)))%list
   | _ => [Log Logger.warn "Cannot generate .htaccess file in SSR mode."]
   end).
Proof.
  intros He. unfold build_done, resolve_enabled. rewrite He. cbn [negb].
  destruct (assetsDir c) as [[|d0 d]|]; try reflexivity.
  destruct (synthesize cfg routes initial_run). reflexivity.
Qed.

(** The write gate is closed once the flag is set. *)
Lemma write_gate_closed (dir : string) (htaccess : list string) (st : Run) :
  error st = true -> write_gate existsSync dir htaccess st = [].
Proof. intros He. unfold write_gate. rewrite He. reflexivity. Qed.

Lemma synthesize_logs (cfg : Config) (routes : list RouteData) :
  Forall (fun e => is_log e = true)
    (logged (snd (synthesize cfg routes initial_run))).
Proof. apply logs_only_synthesize. constructor. Qed.

(** A user redirect that is a regular expression with a line break
    closes the gate: the second hook writes nothing. *)
Lemma build_done_line_break (cfg : Config) (routes : list RouteData) (c : Closure) :
  enabled c = Some true ->
  existsb invalid_line_break (list_of (redirects cfg)) = true ->
  writes (snd (build_done existsSync cfg routes c)) = [].
Proof.
  intros He Hv. rewrite build_done_enabled by assumption. cbn [snd].
  destruct (assetsDir c) as [[|d0 d]|]; try reflexivity.
  rewrite write_gate_closed, app_nil_r.
  - apply logs_have_no_write, synthesize_logs.
  - rewrite synthesize_error by reflexivity. exact Hv.
Qed.

End HookFacts.

(* ================================================================== *)
(** * The claims *)
(* ================================================================== *)

(** C1, at two user error pages with code 404, and at two discovered
    routes [/404]: no conflict is found, both lines are written.  In
    general the flag that marks a failed run is set by nothing but a line
    break in a translated redirect. *)
Theorem C1_duplicate_error_codes_are_written :
  Sample.build Sample.duplicate_pages Sample.static_site [] =
  (mkClosure (Some "/site/dist/") (Some true) 0,
   [WriteFile "/site/dist/.htaccess"
      [EmptyString;
       "ErrorDocument 404 /a.html" ++ Sample.newline ++
       "ErrorDocument 404 /b.html"] "a";
    Log Logger.info "Generated .htaccess with 2 rules"]) /\
  Sample.build Sample.no_options Sample.static_site Sample.duplicate_routes =
  (mkClosure (Some "/site/dist/") (Some true) 0,
   [WriteFile "/site/dist/.htaccess"
      [EmptyString;
       "ErrorDocument 404 /404.html" ++ Sample.newline ++
       "ErrorDocument 404 /404.html"] "a";
    Log Logger.info "Generated .htaccess with 2 rules"]) /\
  (forall (cfg : Config) (routes : list RouteData),
     error (snd (synthesize cfg routes initial_run)) =
     existsb invalid_line_break (list_of (redirects cfg))).
Proof.
  split; [vm_compute; reflexivity|]. split; [vm_compute; reflexivity|].
  intros cfg routes. apply synthesize_error. reflexivity.
Qed.

(** C2, at a passthrough line followed by two user error pages with code
    500: the accumulated lines are not discarded, one file with the
    three lines is written. *)
Theorem C2_lines_kept_after_duplicate :
  writes (snd (Sample.build Sample.rules_and_duplicates Sample.static_site [])) =
  [WriteFile "/site/dist/.htaccess"
     [EmptyString;
      "Options -Indexes" ++ Sample.newline ++
      "ErrorDocument 500 /oops.html" ++ Sample.newline ++
      "ErrorDocument 500 /sorry.html"] "a"].
Proof. vm_compute. reflexivity. Qed.

(** C3, at a configuration with [generateHtaccessFile: false] (a boolean,
    and a function that answers [false]): the file of the README is
    written all the same, and the function is not called once. *)
Theorem C3_disabled_build_still_writes :
  Sample.build (Sample.readme_config (Some (GenBoolean false)))
    Sample.static_site Sample.readme_routes =
  (mkClosure (Some "/site/dist/") (Some true) 0,
   [WriteFile "/site/dist/.htaccess"
      [EmptyString; JsString.join Sample.newline Sample.readme_lines] "a";
    Log Logger.info "Generated .htaccess with 6 rules"]) /\
  Sample.build (Sample.readme_config (Some (GenFunction (fun _ => false))))
    Sample.static_site Sample.readme_routes =
  (mkClosure (Some "/site/dist/") (Some true) 0,
   [WriteFile "/site/dist/.htaccess"
      [EmptyString; JsString.join Sample.newline Sample.readme_lines] "a";
    Log Logger.info "Generated .htaccess with 6 rules"]).
Proof. split; vm_compute; reflexivity. Qed.

(** C4, as the specification words it, fails: the rule with code
    [permanent] and the rule with code 301 give different lines, and the
    keyword is not replaced by the number it stands for. *)
Lemma C4_keyword_is_not_mapped :
  fst (on_redirect (mkRedirect (Some permanent) (MatchString "^/old$") "/new")
         initial_run) = "RedirectMatch permanent ^/old$ /new" /\
  fst (on_redirect (mkRedirect (Some n301) (MatchString "^/old$") "/new")
         initial_run) = "RedirectMatch 301 ^/old$ /new" /\
  fst (on_redirect (mkRedirect (Some permanent) (MatchString "^/old$") "/new")
         initial_run) <>
  fst (on_redirect (mkRedirect (Some n301) (MatchString "^/old$") "/new")
         initial_run) /\
  fst (on_redirect (mkRedirect (Some permanent) (MatchString "^/old$") "/new")
         initial_run) <>
  "RedirectMatch " ++
  JsNumber.toString (JsNumber.Nat (effective_status (Some permanent))) ++
  " ^/old$ /new".
Proof.
  split; [reflexivity|]. split; [reflexivity|].
  split; vm_compute; discriminate.
Qed.

(** C4, amended. For every user redirect that is processed (no failure
    before it, no line break in its translated pattern), the status
    written in the [RedirectMatch] line is the rule's code as given: a
    keyword stays the keyword, a number is written in decimal, and an
    omitted code is written 301, as for code 301. *)
Theorem C4_status_written_as_given (r : Redirect) (st : Run) :
  error st = false -> invalid_line_break r = false ->
  on_redirect r st =
  ("RedirectMatch " ++
   match redirect_code r with
   | None => "301"
   | Some permanent => "permanent" | Some n301 => "301"
   | Some temp => "temp" | Some n302 => "302"
   | Some seeother => "seeother" | Some n303 => "303"
   | Some gone => "gone" | Some n410 => "410"
   end ++ " " ++ resolved_match (redirect_match r) ++ " " ++ url r, st) /\
  on_redirect (mkRedirect None (redirect_match r) (url r)) st =
  on_redirect (mkRedirect (Some n301) (redirect_match r) (url r)) st.
Proof.
  intros He Hv. split.
  - rewrite (on_redirect_run r st He Hv). unfold redirect_line.
    destruct (redirect_code r) as [[]|]; reflexivity.
  - rewrite !on_redirect_run by assumption. reflexivity.
Qed.

Lemma C4_status_written_as_given_witness :
  error initial_run = false /\
  invalid_line_break
    (mkRedirect None (MatchRegExp (lit "^\/package@npm$")) "https://npm.example/")
  = false /\
  on_redirect
    (mkRedirect None (MatchRegExp (lit "^\/package@npm$")) "https://npm.example/")
    initial_run =
  ("RedirectMatch 301 ^/package@npm$ https://npm.example/", initial_run).
Proof.
  split; [reflexivity|]. split; [reflexivity|].
  exact (proj1 (C4_status_written_as_given
                  (mkRedirect None (MatchRegExp (lit "^\/package@npm$"))
                     "https://npm.example/")
                  initial_run eq_refl eq_refl)).
Defined.

(** C5. The first example and the rule on spaces hold: [/^\/github\b/]
    becomes [^/github\b], and no translated pattern holds a space.  The
    bracket expression [[a b]] alone is translated as claimed.  But when
    another closing bracket follows before the next space, the third
    group runs on to it: for [/[a b][0-9]/] the output is
    [(?:[ab][0-9]|%20)], which does not contain [(?:[ab]|%20)]; and a
    bracket expression right after a translated one is left to the
    plain replacement of spaces. *)
Theorem C5_translate_regex :
  translate_regex (lit "^\/github\b") = "^/github\b" /\
  (forall re : RegExp,
     JsString.includes_char " " (translate_regex re) = false) /\
  translate_regex (lit "[a b]") = "(?:[ab]|%20)" /\
  translate_regex (lit "[a b][0-9]") = "(?:[ab][0-9]|%20)" /\
  JsString.includes (translate_regex (lit "[a b][0-9]")) "(?:[ab]|%20)" = false /\
  translate_regex (lit "[c d][a b]") = "(?:[cd]|%20)[a%20b]" /\
  JsString.includes (translate_regex (lit "[c d][a b]")) "(?:[ab]|%20)" = false.
Proof.
  split; [reflexivity|]. split; [|repeat split; reflexivity].
  intros re. unfold translate_regex. apply replaceAll_space_free.
Qed.

(** C6. When no user redirect is a regular expression with a line break
    (duplicate error codes need not even be excluded), the lines are
    those of the custom rules, then of the user error pages, then of
    the routes in the order of the generator, then of the user
    redirects; their number is the sum over the four sources; the one
    file written holds them joined by line feeds; and when no line has
    a line feed of its own, splitting the text at line feeds gives the
    lines back. *)
Theorem C6_lines_in_source_order
    (existsSync : string -> bool) (cfg : Config) (routes : list RouteData)
    (d0 : ascii) (d : string) :
  existsb invalid_line_break (list_of (redirects cfg)) = false ->
  let htaccess := fst (synthesize cfg routes initial_run) in
  let text := JsString.join (String JsString.LF EmptyString) htaccess in
  htaccess =
    (list_of (customRules cfg) ++
     map errorPage_line (list_of (errorPages cfg)) ++
     flat_map (route_lines (errorPages_undefined cfg)) routes ++
     map redirect_line (list_of (redirects cfg)))%list /\
  List.length htaccess =
    List.length (list_of (customRules cfg)) +
    List.length (list_of (errorPages cfg)) +
    List.length (flat_map (route_lines (errorPages_undefined cfg)) routes) +
    List.length (list_of (redirects cfg)) /\
  writes (snd (build_done existsSync cfg routes
                 (mkClosure (Some (String d0 d)) (Some true) 0))) =
    [WriteFile (JsPath.join [String d0 d; ".htaccess"])
       [if existsSync (JsPath.join [String d0 d; ".htaccess"])
        then String JsString.LF EmptyString else EmptyString;
        text] "a"] /\
  (htaccess <> [] ->
   Forall (fun line => has_line_break line = false) htaccess ->
   JsString.split JsString.LF text = htaccess).
Proof.
  intros Hv htaccess text.
  assert (Hl : htaccess = expected_lines cfg routes)
    by (apply synthesize_lines; [reflexivity | exact Hv]).
  split; [exact Hl|]. split; [|split].
  - rewrite Hl. unfold expected_lines.
    rewrite !List.length_app, !List.length_map. lia.
  - rewrite build_done_enabled by reflexivity. cbn [snd assetsDir].
    unfold writes. rewrite filter_app.
    fold (writes (logged (snd (synthesize cfg routes initial_run)))).
    rewrite (logs_have_no_write _ (synthesize_logs cfg routes)).
    unfold write_gate. rewrite synthesize_error by reflexivity.
    rewrite Hv. reflexivity.
  - intros Hn HF. apply split_join; assumption.
Qed.

Lemma C6_lines_in_source_order_witness :
  existsb invalid_line_break
    (list_of (redirects (Sample.readme_config None))) = false /\
  fst (synthesize (Sample.readme_config None) Sample.readme_routes initial_run) =
    Sample.readme_lines /\
  List.length
    (fst (synthesize (Sample.readme_config None) Sample.readme_routes initial_run)) =
    2 + 1 + 1 + 2.
Proof.
  split; [reflexivity|].
  pose proof (C6_lines_in_source_order Sample.no_file (Sample.readme_config None)
                Sample.readme_routes "/"%char "site" eq_refl) as H.
  cbv zeta in H. destruct H as (H1 & H2 & _).
  split; [exact H1 | exact H2].
Defined.

(** C7. The routes source discovers error pages exactly when
    [errorPages] is undefined.  With a list, even an empty one, page
    routes contribute nothing.  Without it, every page route made of a
    slash, a digit 3, 4 or 5 and two more digits contributes the line
    [ErrorDocument <digits> <route>.html], and no other page route
    contributes. *)
Theorem C7_discovery_iff_errorPages_undefined
    (cfg : Config) (routes : list RouteData) (st : Run) :
  error st = false ->
  (forall l, errorPages cfg = Some l ->
     fst (source_routes cfg routes st) = flat_map (route_lines false) routes /\
     forall r, type r = RouteType.page -> route_lines false r = []) /\
  (errorPages cfg = None ->
     fst (source_routes cfg routes st) = flat_map (route_lines true) routes /\
     (forall r, type r = RouteType.page ->
        route_lines true r =
        match status_route (route r) with
        | Some ds => ["ErrorDocument " ++ ds ++ " " ++ route r ++ ".html"]
        | None => []
        end) /\
     (forall r ds, In r routes -> type r = RouteType.page ->
        status_route (route r) = Some ds ->
        In ("ErrorDocument " ++ ds ++ " " ++ route r ++ ".html")
           (fst (source_routes cfg routes st)))).
Proof.
  intros He.
  assert (Hsrc : fst (source_routes cfg routes st) =
                 flat_map (route_lines (errorPages_undefined cfg)) routes).
  { unfold source_routes, bind, get_error. rewrite He.
    destruct (reduceM_on_route_run (errorPages_undefined cfg) routes [] st He)
      as (st' & E & _).
    rewrite E. reflexivity. }
  split.
  - intros l Hl. unfold errorPages_undefined in Hsrc. rewrite Hl in Hsrc.
    split; [exact Hsrc|].
    intros r Ht. unfold route_lines. rewrite Ht. reflexivity.
  - intros Hn. unfold errorPages_undefined in Hsrc. rewrite Hn in Hsrc.
    split; [exact Hsrc|]. split; [exact page_route_lines|].
    intros r ds Hin Ht Hs. rewrite Hsrc. apply in_flat_map.
    exists r. split; [exact Hin|].
    rewrite (page_route_lines r Ht), Hs. left. reflexivity.
Qed.

Lemma C7_discovery_iff_errorPages_undefined_witness :
  error initial_run = false /\
  fst (source_routes Sample.no_options Sample.pages initial_run) =
  ["ErrorDocument 404 /404.html"] /\
  fst (source_routes (mkConfig None (Some []) None None) Sample.pages initial_run) =
  [].
Proof.
  split; [reflexivity|]. split.
  - exact (proj1 (proj2 (C7_discovery_iff_errorPages_undefined
                           Sample.no_options Sample.pages initial_run eq_refl)
                    eq_refl)).
  - exact (proj1 (proj1 (C7_discovery_iff_errorPages_undefined
                           (mkConfig None (Some []) None None) Sample.pages
                           initial_run eq_refl)
                    [] eq_refl)).
Defined.

(** C8. The document-path normalization of user error pages (line 111)
    is idempotent: for every string, normalizing twice gives the same
    path as normalizing once; ["/404"] becomes ["/404.html"], which is
    kept. *)
Theorem C8_normalize_document_idempotent :
  (forall document : string,
     normalize_document (normalize_document document) =
     normalize_document document) /\
  normalize_document "/404" = "/404.html" /\
  normalize_document "/404.html" = "/404.html".
Proof.
  split; [|split; reflexivity].
  intros document. unfold normalize_document.
  set (x := if JsString.endsWith document ".html" then document
            else document ++ ".html").
  assert (Hx : JsString.endsWith x ".html" = true).
  { subst x. destruct (JsString.endsWith document ".html") eqn:E;
      [exact E | apply endsWith_app]. }
  destruct (join_root_shape x Hx) as (segs & Hn & HF & E & He).
  rewrite E.
  assert (Hs : JsString.endsWith ("/" ++ JsString.join "/" segs) ".html" = true).
  { change ("/" ++ JsString.join "/" segs)
      with (String "/" (JsString.join "/" segs)).
    rewrite endsWith_eq, He. apply orb_true_r. }
  rewrite Hs. apply join_root_fixed; assumption.
Qed.

(** C9. The output does not depend on [generateHtaccessFile]: two builds
    that differ only in that option have the same events and the same
    final closure; the option is never called, because [enabled] starts
    as [true] and both hooks skip its evaluation. *)
Theorem C9_generateHtaccessFile_is_ignored
    (fileURLToPath : string -> string) (URL : string -> string -> string)
    (existsSync : string -> bool)
    (g1 g2 : option Generate) (ep : option (list ErrorPage))
    (rd : option (list Redirect)) (cr : option (list string))
    (config : AstroConfig) (routes : list RouteData) :
  build fileURLToPath URL existsSync (mkConfig g1 ep rd cr) config routes =
  build fileURLToPath URL existsSync (mkConfig g2 ep rd cr) config routes /\
  calls (fst (build fileURLToPath URL existsSync (mkConfig g1 ep rd cr)
                config routes)) = 0 /\
  ~ In CallGenerateHtaccessFile
      (snd (build fileURLToPath URL existsSync (mkConfig g1 ep rd cr)
              config routes)).
Proof.
  unfold build.
  destruct (config_setup_integration fileURLToPath URL (mkConfig g1 ep rd cr) config)
    as (dir & ev & _ & Hev & Hany).
  rewrite (Hany (mkConfig g1 ep rd cr)), (Hany (mkConfig g2 ep rd cr)).
  rewrite !build_done_enabled by reflexivity.
  split; [reflexivity|]. split; [reflexivity|].
  cbn [snd assetsDir]. intros Hin. apply in_app_or in Hin as [Hin|Hin].
  - exact (logs_have_no_call ev Hev Hin).
  - destruct dir as [[|d0 d]|].
    + destruct Hin as [Hin|[]]. discriminate.
    + apply in_app_or in Hin as [Hin|Hin].
      * exact (logs_have_no_call _ (synthesize_logs _ routes) Hin).
      * unfold write_gate in Hin.
        destruct (negb (error (snd (synthesize (mkConfig g1 ep rd cr) routes initial_run))));
          cbn in Hin; intuition discriminate.
    + destruct Hin as [Hin|[]]. discriminate.
Qed.

(** C10. A user redirect whose [match] is a string is written as it is
    and leaves the shared state untouched, whatever the string holds:
    no translation, no search for a line break, no failure.  In a run
    where no regular-expression rule fails, the flag stays unset and the
    line is among those written, line break included. *)
Theorem C10_string_match_written_verbatim
    (cfg : Config) (routes : list RouteData) (r : Redirect) (m : string) :
  redirect_match r = MatchString m ->
  In r (list_of (redirects cfg)) ->
  existsb invalid_line_break (list_of (redirects cfg)) = false ->
  (forall st, error st = false ->
     on_redirect r st =
     ("RedirectMatch " ++ redirect_code_text (redirect_code r) ++ " " ++ m ++
      " " ++ url r, st)) /\
  error (snd (synthesize cfg routes initial_run)) = false /\
  In ("RedirectMatch " ++ redirect_code_text (redirect_code r) ++ " " ++ m ++
      " " ++ url r)
     (fst (synthesize cfg routes initial_run)).
Proof.
  intros Hm Hin Hv. split; [|split].
  - intros st He. unfold on_redirect, bind, get_error. rewrite He, Hm.
    reflexivity.
  - rewrite synthesize_error by reflexivity. exact Hv.
  - rewrite synthesize_lines by (reflexivity || exact Hv).
    unfold expected_lines. rewrite !in_app_iff. right. right. right.
    apply in_map_iff. exists r. split; [|exact Hin].
    unfold redirect_line. rewrite Hm. reflexivity.
Qed.

Lemma C10_string_match_written_verbatim_witness :
  has_line_break ("^/a" ++ Sample.newline ++ "b") = true /\
  error (snd (synthesize Sample.string_with_line_break [] initial_run)) = false /\
  In ("RedirectMatch 301 ^/a" ++ Sample.newline ++ "b /c")
     (fst (synthesize Sample.string_with_line_break [] initial_run)).
Proof.
  split; [reflexivity|].
  exact (proj2 (C10_string_match_written_verbatim
                  Sample.string_with_line_break [] Sample.broken_string_match
                  ("^/a" ++ Sample.newline ++ "b")
                  eq_refl (or_introl eq_refl) eq_refl)).
Defined.

(* ================================================================== *)
(** * Further properties: the log of a run *)
(* ================================================================== *)

Lemma on_route_full (u : bool) (acc : list string) (r : RouteData) (st : Run) :
  error st = false ->
  exists st', on_route u acc r st = ((acc ++ route_lines u r)%list, st') /\
              error st' = false /\
              logged st' =
              (logged st ++ if skipped_redirect r then [skipped_warning r] else [])%list.
Proof.
  intros He.
  unfold on_route, route_lines, skipped_redirect, skipped_warning, bind,
    get_error, get_handled, push.
  rewrite He.
  destruct (type r); cbn;
    try (rewrite ?app_nil_r; eexists; split; [reflexivity|];
         cbn; rewrite ?app_nil_r; split; [assumption | reflexivity]).
  - destruct u; cbn;
      [|rewrite ?app_nil_r; eexists; split; [reflexivity|];
        cbn; rewrite ?app_nil_r; split; [assumption | reflexivity]].
    destruct (exec errorPageRegex (route r)) as [m|]; cbn;
      [|rewrite ?app_nil_r; eexists; split; [reflexivity|];
        cbn; rewrite ?app_nil_r; split; [assumption | reflexivity]].
    destruct (JsString.truthy (group 1 (captures m))); cbn;
      [|rewrite ?app_nil_r; eexists; split; [reflexivity|];
        cbn; rewrite ?app_nil_r; split; [assumption | reflexivity]].
    rewrite js_in_false. cbn.
    eexists; split; [reflexivity|]. cbn. rewrite app_nil_r. split; [assumption | reflexivity].
  - destruct (destination_of (redirect r)) as [[|c d]|]; cbn;
      rewrite ?app_nil_r; eexists; (split; [reflexivity|]);
      cbn; rewrite ?app_nil_r; split; (assumption || reflexivity).
Qed.

Lemma reduceM_on_route_full (u : bool) (routes : list RouteData)
    (acc : list string) (st : Run) :
  error st = false ->
  exists st', reduceM (on_route u) routes acc st =
                ((acc ++ flat_map (route_lines u) routes)%list, st') /\
              error st' = false /\
              logged st' = (logged st ++ route_warnings routes)%list.
Proof.
  unfold route_warnings.
  revert acc st. induction routes as [|r routes IH]; intros acc st He; cbn.
  - rewrite !app_nil_r. exists st. repeat split; assumption || reflexivity.
  - unfold bind at 1.
    destruct (on_route_full u acc r st He) as (st1 & E1 & He1 & Hl1).
    rewrite E1.
    destruct (IH (acc ++ route_lines u r)%list st1 He1) as (st2 & E2 & He2 & Hl2).
    rewrite E2, <- app_assoc. exists st2.
    split; [reflexivity|]. split; [assumption|].
    rewrite Hl2, Hl1, <- app_assoc.
    destruct (skipped_redirect r); reflexivity.
Qed.

(** The state before the user redirects are read: no failure, and one
    warning for every skipped redirect route. *)
Lemma before_redirects (cfg : Config) (routes : list RouteData) :
  exists st2,
    synthesize cfg routes initial_run =
      (let (l4, st3) := source_redirects cfg st2 in
       ((list_of (customRules cfg) ++
         map errorPage_line (list_of (errorPages cfg)) ++
         flat_map (route_lines (errorPages_undefined cfg)) routes ++ l4)%list,
        st3)) /\
    error st2 = false /\
    logged st2 = route_warnings routes.
Proof.
  assert (H1 : exists st1,
             source_errorPages cfg initial_run =
               (map errorPage_line (list_of (errorPages cfg)), st1) /\
             error st1 = false /\ logged st1 = []).
  { unfold source_errorPages, bind, get_error. cbn [error initial_run].
    destruct (errorPages cfg) as [l|]; cbn [list_of].
    - destruct (mapM_on_errorPage_run l initial_run eq_refl) as (st1 & E & He1 & Hl1).
      exists st1. auto.
    - exists initial_run. auto. }
  destruct H1 as (st1 & E1 & He1 & Hl1).
  destruct (reduceM_on_route_full (errorPages_undefined cfg) routes [] st1 He1)
    as (st2 & E2 & He2 & Hl2).
  exists st2. split; [|split; [assumption|]].
  - unfold synthesize, source_customRules. unfold bind at 1. unfold ret at 1.
    unfold bind at 1. rewrite E1. unfold bind at 1.
    unfold source_routes at 1, bind at 1, get_error at 1. rewrite He1, E2.
    unfold bind at 1.
    destruct (source_redirects cfg st2) as [l4 st3]. reflexivity.
  - rewrite Hl2, Hl1. reflexivity.
Qed.

(** The first user redirect with a line break is reported, once; the
    flag is set. *)
Lemma mapM_on_redirect_first_invalid (l : list Redirect) (r : Redirect) (st : Run) :
  error st = false ->
  find invalid_line_break l = Some r ->
  error (snd (mapM on_redirect l st)) = true /\
  logged (snd (mapM on_redirect l st)) = (logged st ++ [line_break_error r])%list.
Proof.
  intros He. induction l as [|x l IH]; cbn [find]; [discriminate|].
  destruct (invalid_line_break x) eqn:Hv.
  - intros [= <-].
    assert (E : mapM on_redirect (x :: l) st =
                (EmptyString :: map (fun _ => EmptyString) l,
                 mkRun true (handledErrorCodes st)
                   (logged st ++ [line_break_error x])%list)).
    { cbn [mapM].
      unfold bind at 1. unfold on_redirect at 1, bind at 1, get_error at 1.
      rewrite He. unfold invalid_line_break in Hv.
      destruct (redirect_match x) as [m|re]; [discriminate|].
      rewrite Hv. cbn. unfold bind at 1.
      rewrite mapM_on_redirect_after_error by reflexivity. reflexivity. }
    rewrite E. split; reflexivity.
  - intros Hf. specialize (IH Hf).
    assert (E : mapM on_redirect (x :: l) st =
                (redirect_line x :: fst (mapM on_redirect l st),
                 snd (mapM on_redirect l st))).
    { cbn [mapM]. unfold bind at 1.
      rewrite (on_redirect_run x st He Hv). unfold bind at 1.
      destruct (mapM on_redirect l st). reflexivity. }
    rewrite E. exact IH.
Qed.

Lemma source_redirects_valid (cfg : Config) (st : Run) :
  error st = false ->
  existsb invalid_line_break (list_of (redirects cfg)) = false ->
  source_redirects cfg st = (map redirect_line (list_of (redirects cfg)), st).
Proof.
  intros He Hv. unfold source_redirects, bind, get_error. rewrite He.
  destruct (redirects cfg) as [l|]; [|reflexivity].
  apply mapM_on_redirect_run; [assumption | apply no_invalid_forallb, Hv].
Qed.

Lemma route_warnings_no_write (routes : list RouteData) :
  writes (route_warnings routes) = [].
Proof.
  unfold route_warnings.
  induction (filter skipped_redirect routes) as [|r l IH]; [reflexivity | exact IH].
Qed.

Section Traces.

Variable fileURLToPath : string -> string.
Variable URL : string -> string -> string.
Variable existsSync : string -> bool.

(** X1. In SSR mode ([output: "server"]) a build does nothing but warn:
    the setup hook leaves [assetsDir] unset, the second hook finds it
    unset; both log the same warning, whatever the options and the
    routes are. *)
Theorem X1_server_output_only_warns
    (cfg : Config) (config : AstroConfig) (routes : list RouteData) :
  output config = "server" ->
  build fileURLToPath URL existsSync cfg config routes =
  (integration,
   [Log Logger.warn "Cannot generate .htaccess file in SSR mode.";
    Log Logger.warn "Cannot generate .htaccess file in SSR mode."]).
Proof.
  intros Ho. unfold build, config_setup, resolve_enabled. cbn [enabled integration].
  cbn [negb]. rewrite Ho. cbn [String.eqb]. rewrite !Ascii.eqb_refl.
  rewrite build_done_enabled by reflexivity. reflexivity.
Qed.

(** X2. After the setup hook of a fresh integration, [assetsDir] is
    unset exactly when the output mode is [server]; the hook calls
    nothing and writes nothing. *)
Theorem X2_assetsDir_unset_iff_server (cfg : Config) (config : AstroConfig) :
  (assetsDir (fst (config_setup fileURLToPath URL cfg config integration)) = None
   <-> output config = "server") /\
  Forall (fun e => is_log e = true)
    (snd (config_setup fileURLToPath URL cfg config integration)).
Proof.
  unfold config_setup, resolve_enabled. cbn [enabled integration negb].
  destruct (String.eqb_spec (output config) "server") as [Ho|Ho]; cbn [fst snd].
  - split; [split; [intros _; exact Ho | reflexivity]|].
    constructor; [reflexivity | constructor].
  - split; [|constructor].
    split; [discriminate | intros H; contradiction].
Qed.

Lemma success_writes_once
    (cfg : Config) (routes : list RouteData) (c : Closure) (d0 : ascii) (d : string) :
  enabled c = Some true ->
  assetsDir c = Some (String d0 d) ->
  existsb invalid_line_break (list_of (redirects cfg)) = false ->
  List.length (writes (snd (build_done existsSync cfg routes c))) = 1.
Proof.
  intros He Ha Hv. rewrite build_done_enabled by assumption. rewrite Ha.
  cbn [snd]. unfold writes. rewrite filter_app.
  fold (writes (logged (snd (synthesize cfg routes initial_run)))).
  rewrite (logs_have_no_write _ (synthesize_logs cfg routes)).
  unfold write_gate. rewrite synthesize_error by reflexivity.
  rewrite Hv. reflexivity.
Qed.

(** X4. The events of a successful second hook: one warning for every
    redirect route without destination, in route order; then one file
    written with the lines of the four sources; then the summary with
    the number of lines. *)
Theorem X4_success_trace
    (cfg : Config) (routes : list RouteData) (c : Closure) (d0 : ascii) (d : string) :
  enabled c = Some true ->
  assetsDir c = Some (String d0 d) ->
  existsb invalid_line_break (list_of (redirects cfg)) = false ->
  build_done existsSync cfg routes c =
  (c,
   (route_warnings routes ++
    [WriteFile (JsPath.join [String d0 d; ".htaccess"])
       [if existsSync (JsPath.join [String d0 d; ".htaccess"])
        then String JsString.LF EmptyString else EmptyString;
        JsString.join (String JsString.LF EmptyString) (expected_lines cfg routes)]
       "a";
     Log Logger.info (generated_message (expected_lines cfg routes))])%list).
Proof.
  intros He Ha Hv. rewrite build_done_enabled by assumption. rewrite Ha.
  destruct (before_redirects cfg routes) as (st2 & E & He2 & Hl2).
  rewrite (source_redirects_valid cfg st2 He2 Hv) in E.
  fold (expected_lines cfg routes) in E. rewrite E. cbn [fst snd].
  rewrite Hl2. unfold write_gate. rewrite He2. reflexivity.
Qed.

(** X5. The events of a second hook that fails: the same warnings, then
    one error that names the url of the first user redirect whose
    translated pattern holds a line break; later redirects are not
    reported, nothing is written, no summary is logged. *)
Theorem X5_failure_trace
    (cfg : Config) (routes : list RouteData) (c : Closure) (d0 : ascii) (d : string)
    (r : Redirect) :
  enabled c = Some true ->
  assetsDir c = Some (String d0 d) ->
  find invalid_line_break (list_of (redirects cfg)) = Some r ->
  build_done existsSync cfg routes c =
  (c, (route_warnings routes ++ [line_break_error r])%list).
Proof.
  intros He Ha Hf. rewrite build_done_enabled by assumption. rewrite Ha.
  destruct (before_redirects cfg routes) as (st2 & E & He2 & Hl2).
  assert (Hs : error (snd (source_redirects cfg st2)) = true /\
               logged (snd (source_redirects cfg st2)) =
               (logged st2 ++ [line_break_error r])%list).
  { unfold source_redirects, bind, get_error. rewrite He2.
    destruct (redirects cfg) as [l|]; [|discriminate Hf].
    apply mapM_on_redirect_first_invalid; assumption. }
  destruct (source_redirects cfg st2) as [l4 st3]. cbn [snd] in Hs.
  destruct Hs as [He3 Hl3].
  rewrite E. cbn [fst snd]. rewrite write_gate_closed by assumption.
  rewrite app_nil_r, Hl3, Hl2. reflexivity.
Qed.

(** X3. With the switch resolved to [true], the second hook writes a
    file exactly when [assetsDir] is a non-empty path and no user
    redirect translates to a pattern with a line break; it never writes
    more than one. *)
Theorem X3_file_written_iff
    (cfg : Config) (routes : list RouteData) (c : Closure) :
  enabled c = Some true ->
  (writes (snd (build_done existsSync cfg routes c)) <> [] <->
   (exists d0 d, assetsDir c = Some (String d0 d)) /\
   existsb invalid_line_break (list_of (redirects cfg)) = false) /\
  List.length (writes (snd (build_done existsSync cfg routes c))) <= 1.
Proof.
  intros He.
  destruct (existsb invalid_line_break (list_of (redirects cfg))) eqn:Hv.
  - rewrite (build_done_line_break existsSync cfg routes c He Hv).
    split; [|cbn; lia].
    split; [intros H; contradiction | intros [_ H]; discriminate].
  - destruct (assetsDir c) as [[|d0 d]|] eqn:Ha.
    + rewrite build_done_enabled by assumption. rewrite Ha.
      split; [|cbn; lia].
      split; [intros H; contradiction H; reflexivity
             | intros [(? & ? & H) _]; discriminate].
    + pose proof (success_writes_once cfg routes c d0 d He Ha Hv) as H1.
      split; [|lia].
      split; [intros _; split; [eauto | reflexivity]|].
      intros _ H0. rewrite H0 in H1. discriminate.
    + rewrite build_done_enabled by assumption. rewrite Ha.
      split; [|cbn; lia].
      split; [intros H; contradiction H; reflexivity
             | intros [(? & ? & H) _]; discriminate].
Qed.

End Traces.

(* ================================================================== *)
(** * Further properties: routes, the switch, the shape of the lines *)
(* ================================================================== *)

Lemma on_route_forget_status (u : bool) (acc : list string) (r : RouteData) (st : Run) :
  on_route u acc (forget_status r) st = on_route u acc r st.
Proof.
  unfold forget_status.
  destruct (redirect r) as [[d|status d]|] eqn:E; try reflexivity.
  unfold on_route, bind. cbn [type route redirect]. rewrite E. reflexivity.
Qed.

Lemma reduceM_forget_status (u : bool) (routes : list RouteData)
    (acc : list string) (st : Run) :
  reduceM (on_route u) (map forget_status routes) acc st =
  reduceM (on_route u) routes acc st.
Proof.
  revert acc st. induction routes as [|r routes IH]; intros acc st; [reflexivity|].
  cbn [map reduceM]. unfold bind. rewrite on_route_forget_status.
  destruct (on_route u acc r st) as [acc' st']. apply IH.
Qed.

(** X6. The status of a generator redirect never reaches the output:
    with every structured redirect descriptor replaced by its bare
    destination, the second hook does exactly the same (same lines, same
    events).  Generator redirects are always written with status 301. *)
Theorem X6_redirect_status_is_ignored
    (existsSync : string -> bool) (cfg : Config) (routes : list RouteData)
    (c : Closure) :
  build_done existsSync cfg (map forget_status routes) c =
  build_done existsSync cfg routes c.
Proof.
  assert (E : synthesize cfg (map forget_status routes) initial_run =
              synthesize cfg routes initial_run).
  { unfold synthesize, source_routes, bind.
    destruct (source_customRules cfg initial_run) as [l1 st1].
    destruct (source_errorPages cfg st1) as [l2 st2].
    destruct (get_error st2) as [err st3].
    destruct err; [reflexivity|].
    rewrite reduceM_forget_status. reflexivity. }
  unfold build_done. rewrite E. reflexivity.
Qed.

(** X7. The resolution of the switch (lines 49-56 and 76-83) memoizes:
    whatever the closure holds, after one resolution a second one gives
    the same answer and the same closure and calls nothing; one
    resolution calls [generateHtaccessFile] at most once, and each call
    is an event. *)
Theorem X7_resolve_enabled_memoizes (cfg : Config) (c : Closure) :
  let c1 := fst (fst (resolve_enabled cfg c)) in
  let ev1 := snd (fst (resolve_enabled cfg c)) in
  let b1 := snd (resolve_enabled cfg c) in
  resolve_enabled cfg c1 = (c1, [], b1) /\
  enabled c1 = Some b1 /\
  assetsDir c1 = assetsDir c /\
  calls c1 <= S (calls c) /\
  ev1 = repeat CallGenerateHtaccessFile (calls c1 - calls c).
Proof.
  unfold resolve_enabled.
  destruct (enabled c) as [b|] eqn:E.
  - cbn [fst snd]. rewrite E, Nat.sub_diag. repeat split; auto.
  - destruct (generateHtaccessFile cfg) as [[g|f]|];
      cbn [fst snd calls enabled assetsDir];
      rewrite ?Nat.sub_diag;
      replace (S (calls c) - calls c) with 1 by lia;
      repeat split; auto.
Qed.






(* ================================================================== *)
(** * Further properties: the translation of regular expressions *)
(* ================================================================== *)

Section TranslationFacts.

Import JsString.

Lemma dropLast_app (s : string) (a : ascii) (t : string) :
  dropLast (s ++ String a t) = s ++ dropLast (String a t).
Proof.
  induction s as [|c s IH]; [reflexivity|].
  change (String c s ++ String a t) with (String c (s ++ String a t)).
  change (String c s ++ dropLast (String a t))
    with (String c (s ++ dropLast (String a t))).
  rewrite <- IH.
  destruct s; reflexivity.
Qed.

(** X9. Lines 158-160 strip the delimiters only of a regular expression
    without flags: the text kept is the source followed by what is left
    of the closing slash and the flags once the last character is
    dropped.  Without flags that is the source; with flags the closing
    slash stays in the pattern and the last flag is lost. *)
Theorem X9_slice_keeps_slash_before_flags (src fl : string) :
  slice_1_m1 (JsRegExp.toString (mkRegExp src fl)) =
  src ++ dropLast (String "/" fl) /\
  slice_1_m1 (JsRegExp.toString (mkRegExp src EmptyString)) = src /\
  forall f, slice_1_m1 (JsRegExp.toString (mkRegExp src (String f EmptyString))) =
            src ++ "/".
Proof.
  assert (H : forall fl', slice_1_m1 (JsRegExp.toString (mkRegExp src fl')) =
                          src ++ dropLast (String "/" fl')).
  { intros fl'. unfold JsRegExp.toString. cbn [source flags].
    change ("/" ++ src ++ "/" ++ fl') with (String "/" (src ++ String "/" fl')).
    cbn [slice_1_m1]. apply dropLast_app. }
  split; [apply H|]. split.
  - rewrite H. cbn [dropLast]. apply append_empty_r.
  - intros f. rewrite H. reflexivity.
Qed.

Lemma includes_char_tail (c a : ascii) (s : string) :
  includes_char c (String a s) = false ->
  (a =? c)%char = false /\ includes_char c s = false.
Proof. cbn [includes_char]. intros H. apply orb_false_iff in H. exact H. Qed.

Lemma dropLast_absent (c : ascii) (s : string) :
  includes_char c s = false -> includes_char c (dropLast s) = false.
Proof.
  induction s as [|a s IH]; [reflexivity|].
  intros H. apply includes_char_tail in H as [Ha Hs].
  destruct s as [|b s]; [reflexivity|].
  change (dropLast (String a (String b s))) with (String a (dropLast (String b s))).
  cbn [includes_char]. rewrite Ha, (IH Hs). reflexivity.
Qed.

Lemma replaceAll_from_absent (c : ascii) (pat rep : string) (s : string) :
  includes_char c rep = false ->
  forall skip, includes_char c s = false ->
               includes_char c (replaceAll_from pat rep skip s) = false.
Proof.
  intros Hrep. induction s as [|a s IH]; intros skip H; [reflexivity|].
  apply includes_char_tail in H as [Ha Hs]. cbn [replaceAll_from].
  destruct skip as [|k]; [|apply IH; assumption].
  destruct (prefix pat (String a s)).
  - rewrite includes_char_app, Hrep, (IH _ Hs). reflexivity.
  - cbn [includes_char]. rewrite Ha, (IH _ Hs). reflexivity.
Qed.

(** A pattern occurs nowhere when its first character does not. *)
Lemma replaceAll_absent_id (c : ascii) (pat rep s : string) :
  includes_char c s = false ->
  replaceAll s (String c pat) rep = s.
Proof.
  unfold replaceAll. induction s as [|a s IH]; [reflexivity|].
  intros H. apply includes_char_tail in H as [Ha Hs].
  cbn [replaceAll_from prefix].
  destruct (ascii_dec c a) as [->|_].
  - rewrite Ascii.eqb_refl in Ha. discriminate.
  - rewrite (IH Hs). reflexivity.
Qed.

(** A continuation that fails wherever the character [c] is absent from
    the rest of the subject makes every match fail there: the matcher
    only moves forward in the subject. *)
Lemma rmatch_fails (c : ascii) (r : regex) :
  forall k,
    (forall st, includes_char c (rest st) = false -> k st = None) ->
    forall st, includes_char c (rest st) = false -> rmatch r k st = None.
Proof.
  assert (Hstep : forall p k,
            (forall st, includes_char c (rest st) = false -> k st = None) ->
            forall st, includes_char c (rest st) = false -> step_char p k st = None).
  { intros p k Hk st H. unfold step_char.
    destruct (rest st) as [|a s] eqn:E; [reflexivity|].
    destruct (p a); [|reflexivity].
    apply Hk. cbn [rest]. apply (includes_char_tail c a s H). }
  induction r as [a|neg cs| | | |r1 IH1 r2 IH2|r1 IH1 r2 IH2|r1 IH1|i r1 IH1];
    intros k Hk st H; cbn [rmatch].
  - apply Hstep; assumption.
  - apply Hstep; assumption.
  - apply Hstep; assumption.
  - destruct (index st =? 0)%nat; [apply Hk; assumption | reflexivity].
  - destruct (rest st) eqn:E; [apply Hk; rewrite E; reflexivity | reflexivity].
  - apply IH1; [|assumption]. intros st' H'. apply IH2; assumption.
  - rewrite IH1, IH2 by assumption. reflexivity.
  - generalize (String.length (rest st)) as n. intros n. revert st H.
    induction n as [|n IHn]; intros st H; [apply Hk; assumption|].
    rewrite IH1; [apply Hk; assumption | | assumption].
    intros st' H'.
    destruct (String.length (rest st') <? String.length (rest st))%nat;
      [apply IHn; assumption | reflexivity].
  - apply IH1; [|assumption]. intros st' H'. apply Hk. exact H'.
Qed.

(** The regular expression of line 40 needs a space. *)
Lemma bracket_regex_needs_space (i : nat) (s : string) :
  includes_char " " s = false ->
  match_at spaceInCharacterMatchingRegex i s = None.
Proof.
  intros H. unfold match_at, spaceInCharacterMatchingRegex.
  change (rmatch (Rseq ?a ?b) ?k ?st) with (rmatch a (rmatch b k) st).
  apply (rmatch_fails " "); [|exact H]. intros st1 H1.
  change (rmatch (Rseq ?a ?b) ?k ?st) with (rmatch a (rmatch b k) st).
  apply (rmatch_fails " "); [|exact H1]. intros st2 H2.
  change (rmatch (Rseq ?a ?b) ?k ?st) with (rmatch a (rmatch b k) st).
  apply (rmatch_fails " "); [|exact H2]. intros st3 H3.
  change (rmatch (Rseq ?a ?b) ?k ?st) with (rmatch a (rmatch b k) st).
  cbn [rmatch]. unfold step_char.
  destruct (rest st3) as [|a t]; [reflexivity|].
  apply includes_char_tail in H3 as [Ha _].
  rewrite Ascii.eqb_sym, Ha. reflexivity.
Qed.

Lemma replace_walk_without_space (template : string) (s : string) :
  includes_char " " s = false ->
  forall i, replace_walk spaceInCharacterMatchingRegex template i 0 s = s.
Proof.
  induction s as [|a s IH]; intros H i.
  - cbn [replace_walk]. rewrite bracket_regex_needs_space by reflexivity. reflexivity.
  - cbn [replace_walk]. rewrite (bracket_regex_needs_space i _ H).
    apply includes_char_tail in H as [_ Hs]. rewrite (IH Hs). reflexivity.
Qed.

(** X10. A regular expression without a space in its source and flags
    is only unescaped: the bracket rewriting and the replacement of
    spaces leave it as it is, so the pattern written is the sliced text
    with every backslash-slash turned into a slash. *)
Theorem X10_translate_without_space (re : RegExp) :
  includes_char " " (source re) = false ->
  includes_char " " (flags re) = false ->
  translate_regex re =
  replaceAll (source re ++ dropLast (String "/" (flags re))) "\/" "/".
Proof.
  intros Hs Hf. unfold translate_regex.
  assert (E : slice_1_m1 (JsRegExp.toString re) =
              source re ++ dropLast (String "/" (flags re))).
  { destruct re as [src fl]. unfold JsRegExp.toString. cbn [source flags].
    change ("/" ++ src ++ "/" ++ fl) with (String "/" (src ++ String "/" fl)).
    cbn [slice_1_m1]. apply dropLast_app. }
  rewrite E.
  assert (Hfree : includes_char " "
                    (replaceAll (source re ++ dropLast (String "/" (flags re)))
                       "\/" "/") = false).
  { unfold replaceAll. apply replaceAll_from_absent; [reflexivity|].
    rewrite includes_char_app, Hs. apply dropLast_absent.
    cbn [includes_char]. rewrite Hf. reflexivity. }
  unfold JsRegExp.replaceAll. rewrite replace_walk_without_space by exact Hfree.
  apply replaceAll_absent_id. exact Hfree.
Qed.

Lemma X10_translate_without_space_witness :
  includes_char " " (source (lit "^\/package@npm$")) = false /\
  includes_char " " (flags (lit "^\/package@npm$")) = false /\
  translate_regex (lit "^\/package@npm$") = "^/package@npm$".
Proof.
  split; [reflexivity|]. split; [reflexivity|].
  exact (X10_translate_without_space (lit "^\/package@npm$") eq_refl eq_refl).
Defined.

Lemma substring_absent (c : ascii) (s : string) :
  includes_char c s = false ->
  forall n m, includes_char c (substring n m s) = false.
Proof.
  induction s as [|a s IH]; intros H n m.
  - destruct n, m; reflexivity.
  - apply includes_char_tail in H as [Ha Hs].
    destruct n as [|n]; [destruct m as [|m]|]; cbn [substring].
    + reflexivity.
    + cbn [includes_char]. rewrite Ha, (IH Hs). reflexivity.
    + apply IH. assumption.
Qed.

(** Captured groups are pieces of the subject: a character absent from
    the subject is absent from every group of a match. *)
Lemma rmatch_captures_absent (c : ascii) (r : regex) :
  forall k,
    (forall st res,
       includes_char c (rest st) = false ->
       Forall (fun p => includes_char c (snd p) = false) (captures st) ->
       k st = Some res ->
       Forall (fun p => includes_char c (snd p) = false) (captures res)) ->
    forall st res,
      includes_char c (rest st) = false ->
      Forall (fun p => includes_char c (snd p) = false) (captures st) ->
      rmatch r k st = Some res ->
      Forall (fun p => includes_char c (snd p) = false) (captures res).
Proof.
  assert (Hstep : forall p k,
            (forall st res,
               includes_char c (rest st) = false ->
               Forall (fun p => includes_char c (snd p) = false) (captures st) ->
               k st = Some res ->
               Forall (fun p => includes_char c (snd p) = false) (captures res)) ->
            forall st res,
              includes_char c (rest st) = false ->
              Forall (fun p => includes_char c (snd p) = false) (captures st) ->
              step_char p k st = Some res ->
              Forall (fun p => includes_char c (snd p) = false) (captures res)).
  { intros p k Hk st res H Hc. unfold step_char.
    destruct (rest st) as [|a s] eqn:E; [discriminate|].
    destruct (p a); [|discriminate].
    apply Hk; [cbn [rest]; apply (includes_char_tail c a s H) | exact Hc]. }
  induction r as [a|neg cs| | | |r1 IH1 r2 IH2|r1 IH1 r2 IH2|r1 IH1|i r1 IH1];
    intros k Hk st res H Hc; cbn [rmatch].
  - apply Hstep; assumption.
  - apply Hstep; assumption.
  - apply Hstep; assumption.
  - destruct (index st =? 0)%nat; [apply Hk; assumption | discriminate].
  - destruct (rest st) eqn:E; [apply Hk; [rewrite E; reflexivity | assumption]
                              | discriminate].
  - apply IH1; [|assumption|assumption].
    intros st' res' H' Hc'. apply IH2; assumption.
  - destruct (rmatch r1 k st) as [res1|] eqn:E1.
    + intros [= <-]. apply (IH1 k Hk st res1 H Hc E1).
    + apply IH2; assumption.
  - generalize (String.length (rest st)) as n. intros n. revert st res H Hc.
    induction n as [|n IHn]; intros st res H Hc; [apply Hk; assumption|].
    match goal with
    | |- match ?t with _ => _ end = _ -> _ => destruct t as [res1|] eqn:E1
    end.
    + intros [= <-]. revert E1. apply IH1; [|assumption|assumption].
      intros st' res' H' Hc'.
      destruct (String.length (rest st') <? String.length (rest st))%nat;
        [apply IHn; assumption | discriminate].
    + apply Hk; assumption.
  - apply IH1; [|assumption|assumption].
    intros st' res' H' Hc'. apply Hk; [exact H'|].
    cbn [captures]. constructor; [|exact Hc'].
    cbn [snd]. apply substring_absent. exact H.
Qed.

Lemma group_absent (c : ascii) (i : nat) (caps : list (nat * string)) :
  Forall (fun p => includes_char c (snd p) = false) caps ->
  includes_char c (group i caps) = false.
Proof.
  induction 1 as [|[j t] caps Ht _ IH]; [reflexivity|].
  cbn [group]. destruct (i =? j)%nat; [exact Ht | exact IH].
Qed.

Lemma expand_absent (c : ascii) (caps : list (nat * string)) :
  Forall (fun p => includes_char c (snd p) = false) caps ->
  forall template,
    includes_char c template = false ->
    includes_char c (expand template caps) = false.
Proof.
  intros Hc.
  assert (H : forall t,
            (includes_char c t = false -> includes_char c (expand t caps) = false) /\
            (forall a, includes_char c (String a t) = false ->
                       includes_char c (expand (String a t) caps) = false)).
  { induction t as [|d t [IHt IHa]].
    - split; [reflexivity|]. intros a Ha. exact Ha.
    - split; [apply IHa|]. intros a Ha.
      apply includes_char_tail in Ha as [Ha Hdt].
      cbn [expand].
      destruct ((a =? "$")%char && JsNumber.is_digit d && negb (d =? "0")%char).
      + rewrite includes_char_app, (group_absent c _ caps Hc).
        apply IHt. apply (includes_char_tail c d t Hdt).
      + cbn [includes_char]. rewrite Ha. apply IHa. exact Hdt. }
  intros template. apply H.
Qed.

Lemma replace_walk_absent (c : ascii) (r : regex) (template : string) (s : string) :
  includes_char c template = false ->
  includes_char c s = false ->
  forall i skip, includes_char c (replace_walk r template i skip s) = false.
Proof.
  intros Ht.
  assert (Hm : forall i s' st,
            includes_char c s' = false -> match_at r i s' = Some st ->
            includes_char c (expand template (captures st)) = false).
  { intros i s' st Hs' E. apply expand_absent; [|exact Ht].
    unfold match_at in E. revert E.
    apply (rmatch_captures_absent c r);
      [|exact Hs' | constructor].
    intros st' res' _ Hc' [= <-]. exact Hc'. }
  induction s as [|a s IH]; intros H i skip.
  - destruct skip; cbn [replace_walk]; [|reflexivity].
    destruct (match_at r i EmptyString) as [st|] eqn:E; [|reflexivity].
    rewrite append_empty_r. apply (Hm i EmptyString st H E).
  - pose proof (includes_char_tail c a s H) as [Ha Hs].
    destruct skip as [|k]; cbn [replace_walk]; [|apply IH; exact Hs].
    destruct (match_at r i (String a s)) as [st|] eqn:E.
    + rewrite includes_char_app, (Hm i _ st H E).
      destruct (index st - i =? 0)%nat; [|apply IH; exact Hs].
      cbn [includes_char orb]. rewrite Ha. apply IH. exact Hs.
    + cbn [includes_char]. rewrite Ha. apply IH. exact Hs.
Qed.

(** X11. The translation adds no line feed: a regular expression whose
    source and flags hold none is never reported as an invalid pattern.
    The fatal conflict of line 167 can only come from a line feed that
    is already in the text of the regular expression. *)
Theorem X11_line_break_only_from_source (re : RegExp) :
  includes_char LF (source re) = false ->
  includes_char LF (flags re) = false ->
  has_line_break (translate_regex re) = false.
Proof.
  intros Hs Hf. unfold has_line_break, translate_regex, replaceAll.
  apply replaceAll_from_absent; [reflexivity|].
  unfold JsRegExp.replaceAll. apply replace_walk_absent; [reflexivity|].
  apply replaceAll_from_absent; [reflexivity|].
  destruct re as [src fl]. unfold JsRegExp.toString. cbn [source flags] in *.
  change ("/" ++ src ++ "/" ++ fl) with (String "/" (src ++ String "/" fl)).
  cbn [slice_1_m1]. apply dropLast_absent.
  rewrite includes_char_app, Hs. cbn [includes_char]. rewrite Hf. reflexivity.
Qed.

Lemma X11_line_break_only_from_source_witness :
  includes_char LF (source (lit "^/docs/[a b]+$")) = false /\
  includes_char LF (flags (lit "^/docs/[a b]+$")) = false /\
  has_line_break (translate_regex (lit "^/docs/[a b]+$")) = false /\
  translate_regex (lit "^/docs/[a b]+$") = "^/docs/(?:[ab]|%20)+$".
Proof.
  split; [reflexivity|]. split; [reflexivity|].
  split; [|reflexivity].
  exact (X11_line_break_only_from_source (lit "^/docs/[a b]+$") eq_refl eq_refl).
Defined.

End TranslationFacts.

(* ================================================================== *)
(** * Further properties: the path of an error document *)
(* ================================================================== *)

(** X12. The path written for a user error page is absolute and clean:
    a slash followed by segments joined by single slashes, none of them
    empty, [.] or [..], and the last one ending with [.html]; splitting
    the path at slashes gives the empty string and those segments
    back. *)
Theorem X12_normalize_document_shape (document : string) :
  exists segs,
    segs <> [] /\
    Forall (fun seg => clean_segment seg = true) segs /\
    normalize_document document = "/" ++ JsString.join "/" segs /\
    JsString.split "/" (normalize_document document) = EmptyString :: segs /\
    JsString.endsWith (normalize_document document) ".html" = true.
Proof.
  unfold normalize_document.
  set (x := if JsString.endsWith document ".html" then document
            else document ++ ".html").
  assert (Hx : JsString.endsWith x ".html" = true).
  { subst x. destruct (JsString.endsWith document ".html") eqn:E;
      [exact E | apply endsWith_app]. }
  destruct (join_root_shape x Hx) as (segs & Hn & HF & E & He).
  exists segs. rewrite E. repeat split; try assumption.
  change ("/" ++ JsString.join "/" segs)
      with (String JsPath.SLASH
              (JsString.join (String JsPath.SLASH EmptyString) segs)).
    rewrite split_cons_sep.
    rewrite (split_join JsPath.SLASH segs Hn (clean_no_slash segs HF)).
    reflexivity.
Qed.

(* ================================================================== *)
(** * The further properties at sample inputs *)
(* ================================================================== *)

Lemma X1_server_output_only_warns_witness :
  output (mkAstroConfig "server" None "file:///site/" (Some "/")
            "file:///site/dist/" "file:///site/dist/client/") = "server" /\
  Sample.build (Sample.readme_config None)
    (mkAstroConfig "server" None "file:///site/" (Some "/")
       "file:///site/dist/" "file:///site/dist/client/")
    Sample.readme_routes =
  (integration,
   [Log Logger.warn "Cannot generate .htaccess file in SSR mode.";
    Log Logger.warn "Cannot generate .htaccess file in SSR mode."]).
Proof.
  split; [reflexivity|].
  exact (X1_server_output_only_warns Sample.fileURLToPath Sample.URL Sample.no_file
           (Sample.readme_config None)
           (mkAstroConfig "server" None "file:///site/" (Some "/")
              "file:///site/dist/" "file:///site/dist/client/")
           Sample.readme_routes eq_refl).
Defined.

Lemma X3_file_written_iff_witness :
  enabled (mkClosure (Some "/site/dist/") (Some true) 0) = Some true /\
  writes (snd (build_done Sample.no_file (Sample.readme_config None)
                 Sample.readme_routes
                 (mkClosure (Some "/site/dist/") (Some true) 0))) <> [] /\
  List.length
    (writes (snd (build_done Sample.no_file (Sample.readme_config None)
                    Sample.readme_routes
                    (mkClosure (Some "/site/dist/") (Some true) 0)))) <= 1.
Proof.
  split; [reflexivity|].
  pose proof (X3_file_written_iff Sample.no_file (Sample.readme_config None)
                Sample.readme_routes
                (mkClosure (Some "/site/dist/") (Some true) 0) eq_refl) as [Hiff Hle].
  split; [|exact Hle].
  apply Hiff. split; [|reflexivity].
  exists "/"%char, "site/dist/". reflexivity.
Defined.

Lemma X4_success_trace_witness :
  enabled (mkClosure (Some "/site/dist/") (Some true) 0) = Some true /\
  assetsDir (mkClosure (Some "/site/dist/") (Some true) 0) = Some "/site/dist/" /\
  existsb invalid_line_break
    (list_of (redirects (Sample.readme_config None))) = false /\
  build_done Sample.no_file (Sample.readme_config None)
    (mkRoute RouteType.redirect "/gone" None :: Sample.readme_routes)
    (mkClosure (Some "/site/dist/") (Some true) 0) =
  (mkClosure (Some "/site/dist/") (Some true) 0,
   [Log Logger.warn
      ("No destination found for redirect route " ++ DQUOTE ++ "/gone" ++
       DQUOTE ++ "! Skipping.");
    WriteFile "/site/dist/.htaccess"
      [EmptyString; JsString.join Sample.newline Sample.readme_lines] "a";
    Log Logger.info "Generated .htaccess with 6 rules"]).
Proof.
  split; [reflexivity|]. split; [reflexivity|]. split; [reflexivity|].
  exact (X4_success_trace Sample.no_file (Sample.readme_config None)
           (mkRoute RouteType.redirect "/gone" None :: Sample.readme_routes)
           (mkClosure (Some "/site/dist/") (Some true) 0)
           "/"%char "site/dist/" eq_refl eq_refl eq_refl).
Defined.

Lemma X5_failure_trace_witness :
  enabled (mkClosure (Some "/site/dist/") (Some true) 0) = Some true /\
  assetsDir (mkClosure (Some "/site/dist/") (Some true) 0) = Some "/site/dist/" /\
  find invalid_line_break
    [mkRedirect None (MatchString "^/ok$") "/fine";
     mkRedirect None (MatchRegExp (lit ("a" ++ Sample.newline ++ "b"))) "/first";
     mkRedirect None (MatchRegExp (lit ("c" ++ Sample.newline ++ "d"))) "/second"] =
  Some (mkRedirect None (MatchRegExp (lit ("a" ++ Sample.newline ++ "b"))) "/first") /\
  build_done Sample.no_file
    (mkConfig None None
       (Some [mkRedirect None (MatchString "^/ok$") "/fine";
              mkRedirect None (MatchRegExp (lit ("a" ++ Sample.newline ++ "b"))) "/first";
              mkRedirect None (MatchRegExp (lit ("c" ++ Sample.newline ++ "d"))) "/second"])
       (Some ["Options -Indexes"]))
    [mkRoute RouteType.redirect "/gone" None]
    (mkClosure (Some "/site/dist/") (Some true) 0) =
  (mkClosure (Some "/site/dist/") (Some true) 0,
   [Log Logger.warn
      ("No destination found for redirect route " ++ DQUOTE ++ "/gone" ++
       DQUOTE ++ "! Skipping.");
    Log Logger.error "Invalid line break in regex for /first"]).
Proof.
  split; [reflexivity|]. split; [reflexivity|]. split; [reflexivity|].
  exact (X5_failure_trace Sample.no_file
           (mkConfig None None
              (Some [mkRedirect None (MatchString "^/ok$") "/fine";
                     mkRedirect None (MatchRegExp (lit ("a" ++ Sample.newline ++ "b"))) "/first";
                     mkRedirect None (MatchRegExp (lit ("c" ++ Sample.newline ++ "d"))) "/second"])
              (Some ["Options -Indexes"]))
           [mkRoute RouteType.redirect "/gone" None]
           (mkClosure (Some "/site/dist/") (Some true) 0)
           "/"%char "site/dist/"
           (mkRedirect None (MatchRegExp (lit ("a" ++ Sample.newline ++ "b"))) "/first")
           eq_refl eq_refl eq_refl).
Defined.
